(** * wagtailstreamforms: the submission list view

    A shallow embedding of [wagtailstreamforms/views/submission_list.py]:
    the admin view that lists the submissions of a form, filters them by
    date, paginates the HTML listing and exports them to CSV and XLSX.

    Python values are an inductive type, dictionaries are [gmap]s (or
    association lists where the insertion order is observable), exceptions
    are an error monad, and database queries are recorded in a log that
    is threaded through the view.

    A CSV response is the list of the rows given to [writer.writerow], and
    a workbook is the map from [(row, col)] to the token given to
    [worksheet.write]; how the libraries serialise them is not part of
    the model of the view. The date format that [ExcelDateFormatter]
    computes for the options of the [Workbook] is evaluated where the
    workbook is made, with the [AttributeError] it may raise. Text is a
    sequence of code points below 256. Django's [strip_tags], [int],
    [get_format], the hooks and the permission helper are parameters of
    the view. *)

From Stdlib Require Import ZArith Ascii DecimalString.
From stdpp Require Import gmap strings list fin_maps.

Open Scope string_scope.

(** ** Python values held by a submission *)

Record pydate := { year : nat; month : nat; day : nat }.

(** [utcoffset] is the offset of an aware time in minutes, [None] for a
    naive one. *)
Record pytime := {
  hour : nat; minute : nat; second : nat; microsecond : nat;
  utcoffset : option Z
}.

(** The values [get_data()] can hand out: JSON scalars, lists of text (the
    choices of a multiple-choice field) and the date and time objects. *)
Inductive value :=
| VNone
| VBool (b : bool)
| VInt (z : Z)
| VStr (s : string)
| VList (l : list string)
| VDate (d : pydate)
| VTime (t : pytime)
| VDateTime (d : pydate) (t : pytime).

Inductive exn :=
| Http404 (msg : string)
| PermissionDenied
| DoesNotExist
| MultipleObjectsReturned
| InvalidPage
| OverflowError
| TypeError
| AttributeError (msg : string).

Inductive result (A : Type) :=
| Ok (a : A)
| Raise (e : exn).
Arguments Ok {A} a.
Arguments Raise {A} e.

#[global] Instance result_ret : MRet result := λ A, Ok.
#[global] Instance result_bind : MBind result :=
  λ A B f m, match m with Ok a => f a | Raise e => Raise e end.

(** ** [str()] and [repr()] *)

Definition dquote : ascii := ascii_of_nat 34.
Definition squote : ascii := "'"%char.
Definition backslash : ascii := "\"%char.

Definition str_of_nat (n : nat) : string :=
  NilZero.string_of_uint (Nat.to_uint n).

Definition str_of_Z (z : Z) : string :=
  NilZero.string_of_int (Z.to_int z).

Fixpoint zeros (n : nat) : string :=
  match n with O => "" | S k => String "0" (zeros k) end.

(** ["%0wd" % n] *)
Definition zfill (w n : nat) : string :=
  let s := str_of_nat n in zeros (w - String.length s) +:+ s.

Definition hexdigit (n : nat) : ascii :=
  if decide (n < 10) then ascii_of_nat (48 + n) else ascii_of_nat (87 + n).

Fixpoint contains (c : ascii) (s : string) : bool :=
  match s with
  | EmptyString => false
  | String a r => if decide (a = c) then true else contains c r
  end.

(** One character of [repr(str)] with [q] the chosen quote. A character
    that is not printable is escaped: the control characters below 32
    and from 127 to 159, the no-break space (160) and the soft hyphen
    (173). *)
Definition repr_char (q c : ascii) : string :=
  let n := nat_of_ascii c in
  if decide (c = backslash) then String backslash (String backslash "")
  else if decide (c = q) then String backslash (String q "")
  else if decide (n = 9) then String backslash "t"
  else if decide (n = 10) then String backslash "n"
  else if decide (n = 13) then String backslash "r"
  else if decide (n < 32 ∨ (127 ≤ n ∧ n ≤ 160)%nat ∨ n = 173) then
    String backslash
      (String "x" (String (hexdigit (n / 16)) (String (hexdigit (n mod 16)) "")))
  else String c "".

Fixpoint repr_chars (q : ascii) (s : string) : string :=
  match s with
  | EmptyString => ""
  | String c r => repr_char q c +:+ repr_chars q r
  end.

Definition repr_str (s : string) : string :=
  let q := if contains squote s && negb (contains dquote s)
           then dquote else squote in
  String q (repr_chars q s +:+ String q "").

(** [sep.join(l)] *)
Fixpoint join (sep : string) (l : list string) : string :=
  match l with
  | [] => ""
  | [x] => x
  | x :: r => x +:+ sep +:+ join sep r
  end.

Definition str_date (d : pydate) : string :=
  zfill 4 (year d) +:+ "-" +:+ zfill 2 (month d) +:+ "-" +:+ zfill 2 (day d).

Definition str_offset (o : Z) : string :=
  let m := Z.to_nat (Z.abs o) in
  (if decide (o < 0)%Z then "-" else "+")
    +:+ zfill 2 (m / 60) +:+ ":" +:+ zfill 2 (m mod 60).

Definition str_time (t : pytime) : string :=
  zfill 2 (hour t) +:+ ":" +:+ zfill 2 (minute t) +:+ ":" +:+ zfill 2 (second t)
    +:+ (if decide (microsecond t = 0) then "" else "." +:+ zfill 6 (microsecond t))
    +:+ from_option str_offset "" (utcoffset t).

(** [force_str(v)]: Django returns a [str] as it is and calls [str()] on
    anything else. *)
Definition force_str (v : value) : string :=
  match v with
  | VNone => "None"
  | VBool true => "True"
  | VBool false => "False"
  | VInt z => str_of_Z z
  | VStr s => s
  | VList l => "[" +:+ join ", " (map repr_str l) +:+ "]"
  | VDate d => str_date d
  | VTime t => str_time t
  | VDateTime d t => str_date d +:+ " " +:+ str_time t
  end.

(** The characters of a [str], as iterating over it gives them. *)
Fixpoint chars (s : string) : list string :=
  match s with
  | EmptyString => []
  | String c r => String c "" :: chars r
  end.

(** A Python callable of one argument. *)
Definition pyfun := value → result value.

(** [list_to_str]: [", ".join] accepts any iterable of strings, so a
    [str] is joined character by character; the other values are not
    iterable. *)
Definition list_to_str : pyfun := λ v,
  match v with
  | VList l => Ok (VStr (join ", " l))
  | VStr s => Ok (VStr (join ", " (chars s)))
  | _ => Raise TypeError
  end.

Definition force_str_fn : pyfun := λ v, Ok (VStr (force_str v)).


(** ** [ExcelDateFormatter] *)

Module ExcelDateFormatter.

(** What looking an attribute up gives: the attribute, or
    [AttributeError] with its message. *)
Inductive lookup_result (A : Type) :=
| Attr (a : A)
| AttributeError (msg : string).
Arguments Attr {A} a.
Arguments AttributeError {A} msg.

#[global] Instance lookup_result_ret : MRet lookup_result := λ A, Attr.
#[global] Instance lookup_result_bind : MBind lookup_result :=
  λ A B f m, match m with Attr a => f a | AttributeError msg => AttributeError msg end.

(** Django's date format characters, each with Excel's. *)
Definition _formats : gmap string string :=
  list_to_map
    [ ("d", "DD"); ("j", "D"); ("D", "NN"); ("l", "NNNN"); ("S", ""); ("w", "");
      ("z", ""); ("W", ""); ("m", "MM"); ("n", "M"); ("M", "MMM"); ("b", "MMM");
      ("F", "MMMM"); ("E", "MMM"); ("N", "MMM."); ("y", "YY"); ("Y", "YYYY");
      ("L", ""); ("o", ""); ("g", "H"); ("G", "H"); ("h", "HH"); ("H", "HH");
      ("i", "MM"); ("s", "SS"); ("u", ""); ("a", "AM/PM"); ("A", "AM/PM");
      ("P", "HH:MM AM/PM"); ("e", ""); ("I", ""); ("O", ""); ("T", ""); ("Z", "");
      ("c", "YYYY-MM-DD HH:MM:SS"); ("r", "NN, MMM D YY HH:MM:SS");
      ("U", "[HH]:MM:SS") ].

(** [__getattr__]: a callable that returns the entry of [name], or the
    error. *)
Definition __getattr__ (name : string) : lookup_result (unit → string) :=
  match _formats !! name with
  | Some excel => Attr (λ _, excel)
  | None =>
      AttributeError
        ("'ExcelDateFormatter' object has no attribute '" +:+ name +:+ "'")
  end.

(** *** [Formatter.format], which the class inherits from Django

    The format string is split at the format characters that do not
    follow a backslash ([re_formatchars], whose character class is a
    parameter here); each of them is looked up as an attribute and
    called, and in the text between them a backslash gives way to the
    character it escapes ([re_escaped]). *)

Definition newline : ascii := ascii_of_nat 10.

(** [re_escaped.sub(r'\1', piece)] *)
Fixpoint unescape (s : string) : string :=
  match s with
  | EmptyString => ""
  | String c r =>
      if decide (c = backslash) then
        match r with
        | EmptyString => String c ""
        | String d r' =>
            if decide (d = newline) then String c (unescape r)
            else String d (unescape r')
        end
      else String c (unescape r)
  end.

(** [re_formatchars.split(formatstr)]: the text before the first format
    character, then each format character with the text after it.
    [after_backslash] tells whether the character before is a
    backslash. *)
Fixpoint split (re_formatchars : ascii → bool) (after_backslash : bool)
    (s : string) : string * list (ascii * string) :=
  match s with
  | EmptyString => ("", [])
  | String c r =>
      let (text, pieces) := split re_formatchars (bool_decide (c = backslash)) r in
      if re_formatchars c && negb after_backslash then ("", (c, text) :: pieces)
      else (String c text, pieces)
  end.

(** The loop of [format] over the pieces after the first. No attribute
    of the class is named by one character, so the lookup of a format
    character goes to [__getattr__]. *)
Fixpoint format_pieces (pieces : list (ascii * string)) : lookup_result string :=
  match pieces with
  | [] => Attr ""
  | (c, text) :: rest =>
      method ← __getattr__ (String c "");
      tail ← format_pieces rest;
      Attr (method tt +:+ unescape text +:+ tail)
  end.

Definition format (re_formatchars : ascii → bool) (formatstr : string)
    : lookup_result string :=
  let (text, pieces) := split re_formatchars false formatstr in
  tail ← format_pieces pieces;
  Attr (unescape text +:+ tail).

(** [get], with [get_format] of the active locale. *)
Definition get (re_formatchars : ascii → bool) (get_format : string → string)
    : lookup_result string :=
  format re_formatchars (get_format "SHORT_DATETIME_FORMAT").

End ExcelDateFormatter.

(** ** The class attributes of the view *)

Definition FORMAT_XLSX : string := "xlsx".
Definition FORMAT_CSV : string := "csv".

(** The classes that key [custom_value_preprocess]. *)
Inductive pyclass := date_class | time_class | list_class.

(** [isinstance(v, c)]; [datetime.datetime] is a subclass of
    [datetime.date]. *)
Definition instance_of (v : value) (c : pyclass) : bool :=
  match v, c with
  | VDate _, date_class => true
  | VDateTime _ _, date_class => true
  | VTime _, time_class => true
  | VList _, list_class => true
  | _, _ => false
  end.

Definition isinstance (v : value) (classes : list pyclass) : bool :=
  existsb (instance_of v) classes.

(** [{format: function}]; the function may be [None]. *)
Abbreviation format_dict := (gmap string (option pyfun)).

Record view_class := {
  paginate_by : nat;
  page_kwarg : string;
  (* {field_name: {format: function}} *)
  custom_field_preprocess : gmap string format_dict;
  (* by value class (or tuple of classes) and format, in insertion order *)
  custom_value_preprocess : list (list pyclass * format_dict)
}.

Definition SubmissionListView : view_class := {|
  paginate_by := 25;
  page_kwarg := "p";
  custom_field_preprocess := ∅;
  custom_value_preprocess :=
    [ ([date_class; time_class], {[ FORMAT_XLSX := None ]});
      ([list_class],
       <[ FORMAT_CSV := Some list_to_str ]> {[ FORMAT_XLSX := Some list_to_str ]}) ]
|}.

(** The loop over [custom_value_preprocess.items()]. *)
Fixpoint value_class_function (items : list (list pyclass * format_dict))
    (v : value) (export_format : string) : option pyfun :=
  match items with
  | [] => Some force_str_fn
  | (value_classes, fd) :: rest =>
      if isinstance v value_classes then
        match fd !! export_format with
        | Some f => f
        | None => value_class_function rest v export_format
        end
      else value_class_function rest v export_format
  end.

Definition get_preprocess_function (self : view_class)
    (field : string) (v : value) (export_format : string) : option pyfun :=
  let fd := default ∅ (custom_field_preprocess self !! field) in
  match fd !! export_format with
  | Some f => f
  | None => value_class_function (custom_value_preprocess self) v export_format
  end.

(** ** The worksheet and the row dictionary *)

(** The worksheet records the token handed to [write(row, col, token)]. *)
Abbreviation worksheet := (gmap (nat * nat) value).

(** [d[k] = v] on an [OrderedDict]: a key that is already there keeps its
    place and takes the new value, a new key goes to the end. *)
Fixpoint od_set {V} (k : string) (v : V) (d : list (string * V))
    : list (string * V) :=
  match d with
  | [] => [(k, v)]
  | (k', v') :: r =>
      if decide (k' = k) then (k', v) :: r else (k', v') :: od_set k v r
  end.

Definition apply_preprocess (f : option pyfun) (v : value) : result value :=
  match f with Some g => g v | None => Ok v end.

(** [worksheet.write(row, col, token)]: [None], a boolean, a number, text
    and the date and time objects each have a kind of cell; a list has
    none, and [write] raises [TypeError] for it. *)
Definition worksheet_write (ws : worksheet) (row col : nat) (token : value)
    : result worksheet :=
  match token with
  | VList _ => Raise TypeError
  | _ => Ok (<[(row, col) := token]> ws)
  end.

Fixpoint write_xlsx_cells (self : view_class) (ws : worksheet)
    (row_number col_number : nat) (items : list (string * value))
    : result worksheet :=
  match items with
  | [] => Ok ws
  | (field, v) :: rest =>
      let preprocess_function :=
        get_preprocess_function self field v FORMAT_XLSX in
      processed_value ← apply_preprocess preprocess_function v;
      ws ← worksheet_write ws row_number col_number processed_value;
      write_xlsx_cells self ws row_number (S col_number) rest
  end.

Definition write_xlsx_row (self : view_class) (ws : worksheet)
    (row_dict : list (string * value)) (row_number : nat) : result worksheet :=
  write_xlsx_cells self ws row_number 0 row_dict.

(** ** Models *)

Record Form := {
  pk : Z;
  get_data_fields : list (string * string);   (* (name, label) *)
  get_submission_class : string
}.

Record Submission := {
  id : Z;
  form : Z;
  (* microseconds from 0001-01-01 00:00 *)
  submit_time : Z;
  get_data : gmap string value;
  files : list string
}.

Record Database := {
  Form_objects : list Form;
  (* the rows of each submission class *)
  default_manager : string → list Submission
}.

(** [form_data.get(name)] *)
Definition dict_get (d : gmap string value) (name : string) : value :=
  default VNone (d !! name).


(** ** Requests and responses *)

Inductive http_method := Get | Head | Options | Post | Put | Patch | Delete | Trace.

Record HttpRequest := {
  user : string;
  method : http_method;
  (* each parameter with the value [request.GET.get] returns for it *)
  GET : gmap string string
}.

(** The bound filter form: [is_valid()] and the two entries of
    [cleaned_data]. A bound is a point of the time line of [submit_time];
    a date stands for its midnight. *)
Record BoundForm := {
  is_valid : bool;
  date_from : option Z;
  date_to : option Z
}.

Record DataRow := {
  model_id : Z;
  fields : list value;
  row_files : list string
}.

Record Context := {
  filter_form : BoundForm;
  data_rows : list DataRow;
  data_headings : list string;
  has_delete_permission : bool
}.

Inductive body :=
| NoContent
| CsvRows (rows : list (list string))
| Workbook (ws : worksheet)
| Html (ctx : Context).

Record HttpResponse := {
  status_code : nat;
  content_type : string;
  content_disposition : option string;
  content : body
}.

(** ** Database queries and the monad of the view *)

Inductive db_query :=
| FormGet (pk : option Z)      (* qs.get(pk=pk) on the forms *)
| AuthPermission               (* the permission helper reads the permissions *)
| SubmissionCount              (* the paginator counts the submissions *)
| SubmissionFetch.             (* the submission queryset is iterated *)

(** A computation reads the log of the queries executed so far and
    returns a value or raises, with the log it leaves. *)
Definition M (A : Type) : Type := list db_query → result A * list db_query.

#[global] Instance M_ret : MRet M := λ A a log, (Ok a, log).
#[global] Instance M_bind : MBind M := λ A B f m log,
  match m log with
  | (Ok a, log') => f a log'
  | (Raise e, log') => (Raise e, log')
  end.

Definition raise {A} (e : exn) : M A := λ log, (Raise e, log).
Definition execute (q : db_query) : M unit := λ log, (Ok tt, (log ++ [q])%list).
Definition lift {A} (r : result A) : M A := λ log, (r, log).

(** An [AttributeError] of the date formatter is an exception of the
    view like any other. *)
Definition of_lookup {A} (r : ExcelDateFormatter.lookup_result A) : result A :=
  match r with
  | ExcelDateFormatter.Attr a => Ok a
  | ExcelDateFormatter.AttributeError msg => Raise (AttributeError msg)
  end.

(** ** Dates *)

Definition one_day : Z := 86400000000.

(** [datetime.max], 9999-12-31 23:59:59.999999; the last day is
    [date.max], of ordinal 3652059. *)
Definition max_time : Z := 3652059 * one_day - 1.

(** The midnight that opens the day of ordinal [d] ([d = 1] is
    0001-01-01). *)
Definition midnight (d : Z) : Z := (d - 1) * one_day.

(** [t + datetime.timedelta(days=1)] *)
Definition add_one_day (t : Z) : result Z :=
  if decide (t + one_day ≤ max_time)%Z then Ok (t + one_day)%Z
  else Raise OverflowError.

(** [try: m except exc: handler] *)
Definition try_except {A} (m : M A) (exc : exn → bool) (handler : M A) : M A :=
  λ log,
    match m log with
    | (Raise e, log') => if exc e then handler log' else (Raise e, log')
    | r => r
    end.

(** [l[bottom:top]] *)
Definition slice {A} (bottom top : nat) (l : list A) : list A :=
  take (top - bottom) (drop bottom l).

(** ** The view *)

Section View.

(** The collaborators of the view that live outside this module. *)

(* django.utils.html.strip_tags *)
Variable strip_tags : string → string.
(* the parser of a date field of the filter form; None: not a date *)
Variable to_python : string → option Z.
(* int(page) on a str; None: ValueError *)
Variable int : string → option Z.
(* the character class of django.utils.dateformat.re_formatchars *)
Variable re_formatchars : ascii → bool.
(* django.utils.formats.get_format, for the active locale *)
Variable get_format : string → string.
(* hooks.get_hooks("construct_form_queryset") *)
Variable get_hooks : list (list Form → HttpRequest → list Form).
(* PermissionHelper(model=Form): the answer of user_can_list, and the
   number of lookups of the permission tables it runs for the user (none
   for a superuser or an inactive user); the permissions it has read are
   cached on the user, so user_can_delete_obj runs none after it *)
Variable user_can_list : string → bool.
Variable permission_queries : string → nat.
Variable user_can_delete_obj : string → Form → bool.
(* the rows of the database during the request *)
Variable db : Database.
(* the view class: SubmissionListView or a subclass that overrides its
   attributes *)
Variable self : view_class.

(** Modelled from the spec: [SelectDateForm], of
    [wagtailstreamforms.forms], is missing from the sources at hand. It
    binds the optional [date_from] and [date_to] query parameters; a
    parameter that is absent or empty cleans to [None], and one that
    does not parse makes the form invalid. *)
Definition clean_date (data : gmap string string) (name : string)
    : option (option Z) :=
  match data !! name with
  | None => Some None
  | Some raw =>
      if decide (raw = "") then Some None
      else match to_python raw with
           | Some t => Some (Some t)
           | None => None
           end
  end.

Definition SelectDateForm (data : gmap string string) : BoundForm :=
  match clean_date data "date_from", clean_date data "date_to" with
  | Some f, Some t => {| is_valid := true; date_from := f; date_to := t |}
  | _, _ => {| is_valid := false; date_from := None; date_to := None |}
  end.

(** [qs.get(pk=pk)] *)
Definition queryset_get (pk_ : option Z) (qs : list Form) : M Form :=
  execute (FormGet pk_);;
  match filter (λ f, Some (pk f) = pk_) qs with
  | [] => raise DoesNotExist
  | [f] => mret f
  | _ => raise MultipleObjectsReturned
  end.

Definition is_DoesNotExist (e : exn) : bool :=
  match e with DoesNotExist => true | _ => false end.

Definition get_object (request : HttpRequest) (pk_ : option Z) : M Form :=
  try_except
    (let qs := Form_objects db in
     let qs := foldl (λ qs fn, fn qs request) qs get_hooks in
     queryset_get pk_ qs)
    is_DoesNotExist
    (raise (Http404 "No Form found matching the query")).

(** The queryset is built lazily: no query runs here. *)
Definition get_queryset (object : Form) (ff : BoundForm)
    : result (list Submission) :=
  let submission_class := get_submission_class object in
  let queryset :=
    filter (λ s, form s = pk object) (default_manager db submission_class) in
  if is_valid ff then
    let queryset :=
      match date_from ff with
      | Some date_from => filter (λ s, (date_from ≤ submit_time s)%Z) queryset
      | None => queryset
      end in
    match date_to ff with
    | Some date_to =>
        date_to ← add_one_day date_to;
        Ok (filter (λ s, (submit_time s ≤ date_to)%Z) queryset)
    | None => Ok queryset
    end
  else Ok queryset.

Definition heading (field : string * string) : string :=
  force_str (VStr (strip_tags field.2)).

Definition csv_row (data_fields : list (string * string)) (s : Submission)
    : list string :=
  let form_data := get_data s in
  map (λ field, force_str (dict_get form_data field.1)) data_fields.

Definition csv (object : Form) (ff : BoundForm) : M HttpResponse :=
  queryset ← lift (get_queryset object ff);
  let data_fields := get_data_fields object in
  let data_headings := map heading data_fields in
  execute SubmissionFetch;;
  mret {| status_code := 200;
          content_type := "text/csv; charset=utf-8";
          content_disposition := Some "attachment;filename=export.csv";
          content := CsvRows (data_headings :: map (csv_row data_fields) queryset) |}.

(** The header loop of [write_xlsx]. *)
Fixpoint write_headings (ws : worksheet) (col_number : nat)
    (data_headings : list string) : worksheet :=
  match data_headings with
  | [] => ws
  | field :: rest =>
      write_headings (<[(0, col_number) := VStr field]> ws) (S col_number) rest
  end.

Definition data_dict (data_fields : list (string * string)) (item : Submission)
    : list (string * value) :=
  let form_data := get_data item in
  foldl (λ d field, od_set field.2 (VStr (force_str (dict_get form_data field.1))) d)
    [] data_fields.

(** The row loop of [write_xlsx]. *)
Fixpoint write_items (ws : worksheet) (data_fields : list (string * string))
    (row_number : nat) (queryset : list Submission) : result worksheet :=
  match queryset with
  | [] => Ok ws
  | item :: rest =>
      ws ← write_xlsx_row self ws (data_dict data_fields item) (row_number + 1);
      write_items ws data_fields (S row_number) rest
  end.

(** The [Workbook] is made first, and its options hold
    [ExcelDateFormatter().get()]; then the header, then the rows. *)
Definition write_xlsx (object : Form) (queryset : list Submission) : M worksheet :=
  default_date_format ←
    lift (of_lookup (ExcelDateFormatter.get re_formatchars get_format));
  let ws : worksheet := ∅ in
  let data_fields := get_data_fields object in
  let data_headings := map heading data_fields in
  let ws := write_headings ws 0 data_headings in
  execute SubmissionFetch;;
  lift (write_items ws data_fields 0 queryset).

Definition write_xlsx_response (object : Form) (queryset : list Submission)
    : M HttpResponse :=
  ws ← write_xlsx object queryset;
  mret {| status_code := 200;
          content_type :=
            "application/vnd.openxmlformats-officedocument.spreadsheetml.sheet";
          content_disposition :=
            Some ("attachment; filename="
                    +:+ String dquote ("export.xlsx" +:+ String dquote ""));
          content := Workbook ws |}.

(** *** The HTML listing

    [ListView] and its [Paginator] belong to Django; the view relies on
    them with [orphans = 0] and [allow_empty = True]. *)

(** [ceil(max(1, count) / per_page)] *)
Definition num_pages (count per_page : nat) : nat :=
  (max 1 count + per_page - 1) / per_page.

Definition validate_number (count per_page : nat) (number : Z) : result Z :=
  if decide (number < 1)%Z then Raise InvalidPage
  else if decide (number > Z.of_nat (num_pages count per_page))%Z then
    if decide (number = 1%Z) then Ok number else Raise InvalidPage
  else Ok number.

(** [paginator.page(number).object_list] *)
Definition paginator_page (object_list : list Submission) (per_page : nat)
    (number : Z) : result (list Submission) :=
  let count := length object_list in
  number ← validate_number count per_page number;
  let bottom := (Z.to_nat number - 1) * per_page in
  let top := bottom + per_page in
  let top := if decide (count ≤ top)%nat then count else top in
  Ok (slice bottom top object_list).

Inductive page_request :=
| page_number (n : Z)
| page_last
| page_invalid.

(** [page = self.request.GET.get(page_kwarg) or 1], then [int(page)]
    or ['last']; the URL carries no page. *)
Definition requested_page (request : HttpRequest) : page_request :=
  match GET request !! page_kwarg self with
  | None => page_number 1
  | Some page =>
      if decide (page = "") then page_number 1
      else match int page with
           | Some n => page_number n
           | None => if decide (page = "last") then page_last else page_invalid
           end
  end.

Definition is_InvalidPage (e : exn) : bool :=
  match e with InvalidPage => true | _ => false end.

Definition paginate_queryset (request : HttpRequest)
    (queryset : list Submission) (page_size : nat) : M (list Submission) :=
  match requested_page request with
  | page_invalid =>
      raise (Http404 "Page is not 'last', nor can it be converted to an int.")
  | page_last =>
      (* paginator.num_pages counts, and page() finds the count cached *)
      execute SubmissionCount;;
      try_except
        (lift (paginator_page queryset page_size
                 (Z.of_nat (num_pages (length queryset) page_size))))
        is_InvalidPage (raise (Http404 "Invalid page"))
  | page_number n =>
      try_except
        ((* validate_number turns a number below 1 down before it reads
            num_pages, which is what counts *)
         (if decide (n < 1)%Z then mret tt else execute SubmissionCount);;
         lift (paginator_page queryset page_size n))
        is_InvalidPage (raise (Http404 "Invalid page"))
  end.

Definition data_row (data_fields : list (string * string)) (s : Submission)
    : DataRow :=
  let form_data := get_data s in
  {| model_id := id s;
     fields := map (λ field, dict_get form_data field.1) data_fields;
     row_files := files s |}.

Definition get_context_data (request : HttpRequest) (object : Form)
    (ff : BoundForm) (object_list : list Submission) : M Context :=
  let page_size := paginate_by self in
  if decide (page_size = 0) then
    (* no paginator: context["page_obj"] is None and cannot be iterated *)
    raise TypeError
  else
    page_obj ← paginate_queryset request object_list page_size;
    let data_fields := get_data_fields object in
    let data_headings := map snd data_fields in
    (* for s in context["page_obj"]: the slice of a page without rows has
       equal bounds, which makes it the empty queryset, and iterating
       that runs no query *)
    match page_obj with
    | [] => mret tt
    | _ :: _ => execute SubmissionFetch
    end;;
    mret {| filter_form := ff;
            data_rows := map (data_row data_fields) page_obj;
            data_headings := data_headings;
            has_delete_permission :=
              user_can_delete_obj (user request) object |}.

(** [ListView.get] *)
Definition list_view_get (request : HttpRequest) (object : Form)
    (ff : BoundForm) : M HttpResponse :=
  object_list ← lift (get_queryset object ff);
  context ← get_context_data request object ff object_list;
  mret {| status_code := 200;
          content_type := "text/html; charset=utf-8";
          content_disposition := None;
          content := Html context |}.

Definition get (request : HttpRequest) (object : Form) : M HttpResponse :=
  let ff := SelectDateForm (GET request) in
  if decide (GET request !! "action" = Some "CSV") then csv object ff
  else if decide (GET request !! "action" = Some "EXCEL") then
    queryset ← lift (get_queryset object ff);
    write_xlsx_response object queryset
  else list_view_get request object ff.

(** [View.dispatch]: the handler named after the method, if the view
    has one; [head] falls back on [get]. *)
Definition view_dispatch (request : HttpRequest) (object : Form)
    : M HttpResponse :=
  match method request with
  | Get | Head => get request object
  | Options =>
      mret {| status_code := 200; content_type := "text/html; charset=utf-8";
              content_disposition := None; content := NoContent |}
  | _ =>
      mret {| status_code := 405; content_type := "text/html; charset=utf-8";
              content_disposition := None; content := NoContent |}
  end.

(** [self.permission_helper.user_can_list(user)], with the lookups it
    runs. *)
Definition permission_helper_user_can_list (u : string) : M bool :=
  λ log,
    (Ok (user_can_list u), (log ++ replicate (permission_queries u) AuthPermission)%list).

Definition dispatch (request : HttpRequest) (pk_ : option Z) : M HttpResponse :=
  object ← get_object request pk_;
  can_list ← permission_helper_user_can_list (user request);
  if negb can_list then raise PermissionDenied
  else view_dispatch request object.

End View.

(** ** Definitions the properties are stated with *)

(** Writing the tokens [vals] along row [r] from column [c]. *)
Fixpoint write_row (ws : worksheet) (r c : nat) (vals : list value) : worksheet :=
  match vals with
  | [] => ws
  | v :: rest => write_row (<[(r, c) := v]> ws) r (S c) rest
  end.

(** [d.get(k)] on an ordered dictionary. *)
Fixpoint od_lookup {V} (k : string) (d : list (string * V)) : option V :=
  match d with
  | [] => None
  | (k', v) :: r => if decide (k' = k) then Some v else od_lookup k r
  end.

(** The distinct elements of a list, each at its first occurrence. *)
Definition add_key (ks : list string) (k : string) : list string :=
  if decide (k ∈ ks) then ks else (ks ++ [k])%list.

Definition distinct (l : list string) : list string := foldl add_key [] l.

(** The name of the last schema field that carries [label]. *)
Fixpoint last_named (label : string) (data_fields : list (string * string))
    : option string :=
  match data_fields with
  | [] => None
  | field :: rest =>
      match last_named label rest with
      | Some name => Some name
      | None => if decide (field.2 = label) then Some field.1 else None
      end
  end.

(** The submissions of a form, unfiltered. *)
Definition form_submissions (db : Database) (object : Form) : list Submission :=
  filter (λ s, form s = pk object) (default_manager db (get_submission_class object)).

(** A subclass of the view that overrides [custom_field_preprocess]. *)
Definition with_field_preprocess (cfp : gmap string format_dict) : view_class :=
  {| paginate_by := paginate_by SubmissionListView;
     page_kwarg := page_kwarg SubmissionListView;
     custom_field_preprocess := cfp;
     custom_value_preprocess := custom_value_preprocess SubmissionListView |}.

(** The priority order of the XLSX preprocessing, in the words of the
    specification: the override of the field for the format if there is
    one, else the override of the value's class (a list is joined, a date
    or a time is left as it is), else the coercion to text. *)
Definition preprocess_by_priority (cfp : gmap string format_dict)
    (field : string) (v : value) : option pyfun :=
  match cfp !! field ≫= (λ fd, fd !! FORMAT_XLSX) with
  | Some override => override
  | None =>
      match v with
      | VList _ => Some list_to_str
      | VDate _ | VTime _ | VDateTime _ _ => None
      | _ => Some force_str_fn
      end
  end.

(** The text [write_xlsx] stores for the field [name] of a submission. *)
Definition cell_text (item : Submission) (name : string) : value :=
  VStr (force_str (dict_get (get_data item) name)).

Definition is_text (kv : string * value) : Prop := ∃ s, kv.2 = VStr s.

(** The cell the row loop of [write_xlsx] writes at [(r, c)] when it
    starts after row [rn], if it writes one. *)
Definition written (data_fields : list (string * string))
    (queryset : list Submission) (rn r c : nat) : option value :=
  if decide (rn < r)%nat then
    item ← queryset !! (r - rn - 1)%nat;
    map snd (data_dict data_fields item) !! c
  else None.

(** The forms among which the view looks its form up: all of them, after
    the hooks. *)
Definition visible_forms (get_hooks : list (list Form → HttpRequest → list Form))
    (db : Database) (request : HttpRequest) : list Form :=
  foldl (λ qs fn, fn qs request) (Form_objects db) get_hooks.

(** The forms the id resolves to. *)
Definition resolved (get_hooks : list (list Form → HttpRequest → list Form))
    (db : Database) (request : HttpRequest) (pk_ : option Z) : list Form :=
  filter (λ f, Some (pk f) = pk_) (visible_forms get_hooks db request).

(** The token [write_xlsx_row] writes for an item of the row dictionary,
    or the exception its preprocessing function raises. *)
Definition processed (self : view_class) (kv : string * value) : result value :=
  apply_preprocess (get_preprocess_function self kv.1 kv.2 FORMAT_XLSX) kv.2.

(** The token of an item of the row dictionary once [worksheet.write]
    has taken it, or the exception of the item: the one its
    preprocessing function raises, or the [TypeError] of [write]. *)
Definition stored (self : view_class) (kv : string * value) : result value :=
  token ← processed self kv;
  match token with
  | VList _ => Raise TypeError
  | _ => Ok token
  end.

(** The queries of an HTML listing that shows [page]: the count of the
    paginator, then the rows of the page unless it has none. *)
Definition listing_queries (page : list Submission) : list db_query :=
  SubmissionCount :: match page with [] => [] | _ :: _ => [SubmissionFetch] end.


(** The first row of a CSV response. *)
Definition csv_header (r : HttpResponse) : option (list string) :=
  match content r with
  | CsvRows rows => head rows
  | _ => None
  end.


(** The cell of a CSV response; row 0 is the header. *)
Definition csv_cell (r : HttpResponse) (row col : nat) : option string :=
  match content r with
  | CsvRows rows => match rows !! row with Some cells => cells !! col | None => None end
  | _ => None
  end.

(** The cell of a workbook response. *)
Definition xlsx_cell (r : HttpResponse) (row col : nat) : option value :=
  match content r with
  | Workbook ws => ws !! (row, col)
  | _ => None
  end.

(** ** A concrete installation, for evaluation *)

Module Sample.

(** A plain tag stripper: the text outside [<...>]. *)
Fixpoint strip (in_tag : bool) (s : string) : string :=
  match s with
  | EmptyString => ""
  | String c r =>
      if decide (c = "<"%char) then strip true r
      else if decide (c = ">"%char) then strip false r
      else if in_tag then strip in_tag r else String c (strip in_tag r)
  end.

Definition strip_tags (s : string) : string := strip false s.

Definition digit (c : ascii) : option Z :=
  let n := nat_of_ascii c in
  if decide (48 ≤ n ∧ n ≤ 57)%nat then Some (Z.of_nat (n - 48)) else None.

Fixpoint digits (acc : Z) (s : string) : option Z :=
  match s with
  | EmptyString => Some acc
  | String c r => d ← digit c; digits (10 * acc + d)%Z r
  end.

(** [int] on plain decimal text. *)
Definition int (s : string) : option Z :=
  match s with EmptyString => None | _ => digits 0 s end.

(** Dates are entered by ordinal here. *)
Definition to_python (s : string) : option Z := midnight <$> int s.

(** Django's [re_formatchars] and the [SHORT_DATETIME_FORMAT] of the
    [en] locale. *)
Definition re_formatchars (c : ascii) : bool :=
  contains c "aAbBcdDeEfFgGhHiIjlLmMnNoOPrsStTUuwWyYzZ".

Definition get_format (name : string) : string :=
  if decide (name = "SHORT_DATETIME_FORMAT") then "m/d/Y P" else "".

Definition user_can_list (u : string) : bool := bool_decide (u = "editor").
(** An editor is a superuser here; anyone else has the permissions read
    from the user's own and from the groups'. *)
Definition permission_queries (u : string) : nat :=
  if decide (u = "editor") then 0 else 2.
Definition user_can_delete_obj (u : string) (f : Form) : bool :=
  bool_decide (u = "editor").

Definition contact : Form := {|
  pk := 1;
  get_data_fields := [("name", "<b>Name</b>"); ("colours", "Colours")];
  get_submission_class := "FormSubmission"
|}.

Definition submission (i t : Z) (data : gmap string value) : Submission :=
  {| id := i; form := 1; submit_time := t; get_data := data; files := [] |}.

Definition s1 : Submission :=
  submission 1 (midnight 738000)
    (<["colours" := VList ["red"; "green"]]> {["name" := VStr "Ann"]}).
Definition s2 : Submission :=
  submission 2 (midnight 738001) {["name" := VStr "Bob"]}.

(** A form whose two fields share a label. *)
Definition survey : Form := {|
  pk := 2;
  get_data_fields := [("first", "Name"); ("second", "Name")];
  get_submission_class := "FormSubmission"
|}.

Definition s3 : Submission :=
  {| id := 3; form := 2; submit_time := midnight 738002;
     get_data := {["second" := VStr "x"]}; files := [] |}.

(** A form with a date-time field, and a submission that fills its three
    fields. *)
Definition booking : Form := {|
  pk := 3;
  get_data_fields := [("name", "Name"); ("colours", "Colours"); ("when", "When")];
  get_submission_class := "FormSubmission"
|}.

Definition july_4th : pydate := {| year := 2021; month := 7; day := 4 |}.
Definition half_past_six : pytime :=
  {| hour := 18; minute := 30; second := 0; microsecond := 0; utcoffset := None |}.

Definition s4 : Submission :=
  {| id := 4; form := 3; submit_time := midnight 738004;
     get_data :=
       <["when" := VDateTime july_4th half_past_six]>
         (<["colours" := VList ["red"; "green"]]> {["name" := VStr "Ann"]});
     files := [] |}.

(** A preprocessing function for a subclass of the view. *)
Definition tagged : pyfun := λ v, Ok (VStr ("<" +:+ force_str v +:+ ">")).

Definition db : Database := {|
  Form_objects := [contact; survey];
  default_manager := λ _, [s1; s2; s3]
|}.

Definition no_filter : BoundForm := SelectDateForm to_python ∅.

(** Thirty submissions of [contact], for a listing of two pages. *)
Definition thirty : list Submission :=
  map (λ i, submission (Z.of_nat i) (midnight 738000 + Z.of_nat i)
              {["name" := VStr "Ann"]})
    (seq 1 30).

Definition busy_db : Database := {|
  Form_objects := [contact];
  default_manager := λ _, thirty
|}.

Definition request (u : string) (q : gmap string string) : HttpRequest :=
  {| user := u; method := Get; GET := q |}.

Definition run (request : HttpRequest) (pk_ : option Z) :=
  dispatch strip_tags to_python int re_formatchars get_format [] user_can_list
    permission_queries user_can_delete_obj db SubmissionListView request pk_ [].

End Sample.



(** * Properties *)

(** ** The worksheet after a run of writes *)

Lemma write_row_lookup (vals : list value) (ws : worksheet) (r c r' c' : nat) :
  write_row ws r c vals !! (r', c') =
    if decide (r' = r ∧ (c ≤ c')%nat ∧ (c' < c + length vals)%nat)
    then vals !! (c' - c)%nat
    else ws !! (r', c').
Proof.
  revert ws c. induction vals as [|v rest IH]; intros ws c; simpl.
  - case_decide as H; [lia|done].
  - rewrite IH.
    destruct (decide (r' = r ∧ (S c ≤ c')%nat ∧ (c' < S c + length rest)%nat))
      as [Hin|Hout];
      destruct (decide (r' = r ∧ (c ≤ c')%nat ∧ (c' < c + S (length rest))%nat))
      as [Hin'|Hout']; try lia.
    + destruct (c' - c)%nat as [|k] eqn:E; [lia|].
      simpl. f_equal. lia.
    + destruct Hin' as (-> & ? & ?). assert (c' = c) as -> by lia.
      rewrite Nat.sub_diag. simpl. by rewrite lookup_insert_eq.
    + rewrite lookup_insert_ne; [done|]. intros [= <- <-]. lia.
Qed.

Lemma write_headings_row (hs : list string) (ws : worksheet) (c : nat) :
  write_headings ws c hs = write_row ws 0 c (map VStr hs).
Proof.
  revert ws c. induction hs as [|h rest IH]; intros ws c; simpl; [done|].
  apply IH.
Qed.

(** Without overrides a text value is coerced by [force_str]. *)
Lemma get_preprocess_function_text (field s : string) :
  get_preprocess_function SubmissionListView field (VStr s) FORMAT_XLSX
  = Some force_str_fn.
Proof.
  unfold get_preprocess_function. simpl.
  rewrite lookup_empty. simpl. rewrite lookup_empty. reflexivity.
Qed.

Lemma write_xlsx_cells_text (items : list (string * value)) (ws : worksheet)
    (r c : nat) :
  Forall is_text items →
  write_xlsx_cells SubmissionListView ws r c items
  = Ok (write_row ws r c (map snd items)).
Proof.
  revert ws c. induction items as [|[k v] rest IH]; intros ws c Hall; simpl.
  - done.
  - inversion Hall as [|? ? [s Hs] Hrest]; subst. simpl in Hs. subst v.
    rewrite get_preprocess_function_text. simpl. by apply IH.
Qed.

(** ** The ordered dictionary of a data row *)

Section OrderedDict.
Context {V : Type}.
Implicit Types (d : list (string * V)) (k : string) (v : V).

Lemma od_set_keys k v d : map fst (od_set k v d) = add_key (map fst d) k.
Proof.
  unfold add_key. induction d as [|[k' v'] r IH]; cbn [od_set map fst].
  - destruct (decide (k ∈ [])) as [Hin|_]; [|done]. by apply elem_of_nil in Hin.
  - destruct (decide (k' = k)) as [->|Hne]; cbn [map fst].
    + rewrite decide_True; [done|]. apply elem_of_cons. by left.
    + rewrite IH. destruct (decide (k ∈ map fst r)) as [Hin|Hnin].
      * rewrite decide_True; [done|]. apply elem_of_cons. by right.
      * rewrite decide_False; [done|].
        intros [->|?]%elem_of_cons; done.
Qed.

Lemma od_set_fresh k v d : k ∉ map fst d → od_set k v d = (d ++ [(k, v)])%list.
Proof.
  induction d as [|[k' v'] r IH]; simpl; intros Hnin; [done|].
  rewrite not_elem_of_cons in Hnin. destruct Hnin as [Hne Hnin].
  rewrite decide_False by done. by rewrite IH.
Qed.

Lemma od_lookup_set k k' v d :
  od_lookup k' (od_set k v d) = if decide (k = k') then Some v else od_lookup k' d.
Proof.
  induction d as [|[k0 v0] r IH]; simpl.
  - destruct (decide (k = k')); done.
  - destruct (decide (k0 = k)) as [->|Hne]; simpl.
    + destruct (decide (k = k')); done.
    + destruct (decide (k0 = k')) as [->|Hne'].
      * by rewrite decide_False.
      * apply IH.
Qed.

Lemma od_set_Forall (P : string * V → Prop) k v d :
  P (k, v) → (∀ k0 v0, P (k0, v0) → P (k0, v)) →
  Forall P d → Forall P (od_set k v d).
Proof.
  intros Hk Hv. induction 1 as [|[k0 v0] r H0 Hr IH]; simpl.
  - by constructor.
  - destruct (decide (k0 = k)); constructor; eauto.
Qed.
End OrderedDict.

Lemma add_key_NoDup ks k : NoDup ks → NoDup (add_key ks k).
Proof.
  unfold add_key. intros Hnd. destruct (decide (k ∈ ks)); [done|].
  apply NoDup_app. split; [done|]. split.
  - intros x Hx ->%list_elem_of_singleton. done.
  - apply NoDup_singleton.
Qed.

Lemma add_key_elem ks k x : x ∈ add_key ks k ↔ x ∈ ks ∨ x = k.
Proof.
  unfold add_key. destruct (decide (k ∈ ks)).
  - split; [by left|]. intros [?| ->]; done.
  - rewrite elem_of_app, list_elem_of_singleton. done.
Qed.

Lemma foldl_add_key_NoDup l ks : NoDup ks → NoDup (foldl add_key ks l).
Proof.
  revert ks. induction l as [|k r IH]; intros ks Hnd; simpl; [done|].
  by apply IH, add_key_NoDup.
Qed.

Lemma foldl_add_key_elem l ks x : x ∈ foldl add_key ks l ↔ x ∈ ks ∨ x ∈ l.
Proof.
  revert ks. induction l as [|k r IH]; intros ks; simpl.
  - rewrite elem_of_nil. tauto.
  - rewrite IH, add_key_elem, elem_of_cons. tauto.
Qed.

Lemma distinct_NoDup l : NoDup (distinct l).
Proof. apply foldl_add_key_NoDup, NoDup_nil_2. Qed.

Lemma distinct_elem l x : x ∈ distinct l ↔ x ∈ l.
Proof.
  unfold distinct. rewrite foldl_add_key_elem, elem_of_nil. tauto.
Qed.

Lemma distinct_length l : length (distinct l) = length (remove_dups l).
Proof.
  apply Permutation_length, NoDup_Permutation.
  - apply distinct_NoDup.
  - apply NoDup_remove_dups.
  - intros x. by rewrite distinct_elem, elem_of_remove_dups.
Qed.

Section DataDict.
Variable item : Submission.

Let step (d : list (string * value)) (field : string * string) :=
  od_set field.2 (cell_text item field.1) d.

Lemma fill_keys (data_fields : list (string * string)) d :
  map fst (foldl step d data_fields)
  = foldl add_key (map fst d) (map snd data_fields).
Proof.
  revert d. induction data_fields as [|f rest IH]; intros d; simpl; [done|].
  rewrite IH. unfold step. by rewrite od_set_keys.
Qed.

Lemma fill_lookup (label : string) (data_fields : list (string * string)) d :
  od_lookup label (foldl step d data_fields)
  = match last_named label data_fields with
    | Some name => Some (cell_text item name)
    | None => od_lookup label d
    end.
Proof.
  revert d. induction data_fields as [|f rest IH]; intros d; simpl; [done|].
  rewrite IH. destruct (last_named label rest); [done|].
  unfold step. rewrite od_lookup_set. by destruct (decide (f.2 = label)).
Qed.

Lemma fill_text (data_fields : list (string * string)) d :
  Forall is_text d → Forall is_text (foldl step d data_fields).
Proof.
  revert d. induction data_fields as [|f rest IH]; intros d Hd; simpl; [done|].
  apply IH. unfold step. apply od_set_Forall; [by eexists| |done].
  intros k0 v0 _. by eexists.
Qed.

Lemma fill_fresh (data_fields : list (string * string)) d :
  NoDup (map fst d ++ map snd data_fields) →
  foldl step d data_fields
  = (d ++ map (λ f, (f.2, cell_text item f.1)) data_fields)%list.
Proof.
  revert d. induction data_fields as [|f rest IH]; intros d Hnd; simpl.
  - by rewrite app_nil_r.
  - simpl in Hnd. apply NoDup_app in Hnd as (Hd & Hdisj & Hrest).
    apply NoDup_cons in Hrest as [Hf Hrest].
    assert (f.2 ∉ map fst d) as Hfresh.
    { intros Hin. apply (Hdisj _ Hin). apply elem_of_cons. by left. }
    change (step d f) with (od_set f.2 (cell_text item f.1) d). rewrite (od_set_fresh _ _ _ Hfresh).
    rewrite IH.
    + by rewrite <- app_assoc.
    + rewrite map_app. simpl. apply NoDup_app. split; [|split; [|done]].
      * apply NoDup_app. split; [done|]. split; [|apply NoDup_singleton].
        intros x Hx ->%list_elem_of_singleton. done.
      * intros x [Hx| ->%list_elem_of_singleton]%elem_of_app Hx'; [|done].
        apply (Hdisj _ Hx). apply elem_of_cons. by right.
Qed.
End DataDict.

Lemma data_dict_keys (data_fields : list (string * string)) (item : Submission) :
  map fst (data_dict data_fields item) = distinct (map snd data_fields).
Proof. apply (fill_keys item data_fields []). Qed.

Lemma data_dict_lookup (label : string) (data_fields : list (string * string))
    (item : Submission) :
  od_lookup label (data_dict data_fields item)
  = cell_text item <$> last_named label data_fields.
Proof.
  etrans; [apply (fill_lookup item label data_fields [])|].
  by destruct (last_named label data_fields).
Qed.

Lemma data_dict_text (data_fields : list (string * string)) (item : Submission) :
  Forall is_text (data_dict data_fields item).
Proof. apply (fill_text item data_fields []). constructor. Qed.

Lemma data_dict_NoDup (data_fields : list (string * string)) (item : Submission) :
  NoDup (map snd data_fields) →
  data_dict data_fields item = map (λ f, (f.2, cell_text item f.1)) data_fields.
Proof. intros Hnd. by apply (fill_fresh item data_fields []). Qed.

(** ** The workbook of the view as it ships *)

Lemma write_items_cells (data_fields : list (string * string))
    (queryset : list Submission) (ws : worksheet) (rn : nat) :
  ∃ ws', write_items SubmissionListView ws data_fields rn queryset = Ok ws'
    ∧ ∀ r c, ws' !! (r, c)
        = match written data_fields queryset rn r c with
          | Some v => Some v
          | None => ws !! (r, c)
          end.
Proof.
  revert ws rn. induction queryset as [|item rest IH]; intros ws rn; simpl.
  - exists ws. split; [done|]. intros r c. unfold written.
    destruct (decide (rn < r)%nat); [|done]. by rewrite lookup_nil.
  - unfold write_xlsx_row.
    rewrite write_xlsx_cells_text by apply data_dict_text. simpl.
    destruct (IH (write_row ws (rn + 1) 0 (map snd (data_dict data_fields item))) (S rn))
      as (ws' & -> & Hws').
    exists ws'. split; [done|]. intros r c. rewrite Hws'.
    unfold written. rewrite write_row_lookup.
    destruct (decide (S rn < r)%nat) as [Hlt|Hge].
    + rewrite (decide_True (P := (rn < r)%nat)) by lia.
      replace (r - rn - 1)%nat with (S (r - S rn - 1))%nat by lia. simpl.
      destruct (rest !! (r - S rn - 1)%nat ≫= _); [done|].
      rewrite decide_False by lia. done.
    + destruct (decide (rn < r)%nat) as [Hlt'|Hge'].
      * assert (r = rn + 1)%nat as -> by lia.
        replace (rn + 1 - rn - 1)%nat with 0%nat by lia. simpl.
        rewrite Nat.sub_0_r.
        destruct (decide (_ ∧ _)) as [Hin|Hout].
        -- destruct (lookup_lt_is_Some_2 (map snd (data_dict data_fields item)) c)
             as [v Hv]; [lia|]. by rewrite Hv.
        -- rewrite lookup_ge_None_2; [done|]. lia.
      * rewrite decide_False by lia. done.
Qed.

Lemma headings_sheet_lookup (hs : list string) (r c : nat) :
  write_headings (∅ : worksheet) 0 hs !! (r, c)
  = match r with 0%nat => VStr <$> hs !! c | S _ => None end.
Proof.
  rewrite write_headings_row, write_row_lookup, lookup_empty, length_map.
  destruct r as [|r].
  - rewrite Nat.sub_0_r, list_lookup_fmap.
    destruct (decide (_ ∧ _)) as [Hin|Hout]; [done|].
    rewrite lookup_ge_None_2; [done|]. lia.
  - rewrite decide_False; [done|]. lia.
Qed.

(** Without a date format there is no workbook: the error of the
    formatter leaves [write_xlsx] before anything is written or
    fetched. *)
Lemma write_xlsx_no_date_format (strip_tags : string → string)
    (re_formatchars : ascii → bool) (get_format : string → string)
    (self : view_class) (object : Form) (queryset : list Submission)
    (log : list db_query) (msg : string) :
  ExcelDateFormatter.get re_formatchars get_format
  = ExcelDateFormatter.AttributeError msg →
  write_xlsx strip_tags re_formatchars get_format self object queryset log
  = (Raise (AttributeError msg), log).
Proof.
  intros Hget. unfold write_xlsx, mbind, M_bind, lift. by rewrite Hget.
Qed.

(** Every cell of the workbook: the stripped labels in row 0, then the
    values of the row dictionary of each submission. *)
Lemma write_xlsx_cells_of (strip_tags : string → string)
    (re_formatchars : ascii → bool) (get_format : string → string)
    (object : Form) (queryset : list Submission) (log : list db_query)
    (excel : string) :
  ExcelDateFormatter.get re_formatchars get_format = ExcelDateFormatter.Attr excel →
  ∃ ws, write_xlsx strip_tags re_formatchars get_format SubmissionListView
          object queryset log
        = (Ok ws, (log ++ [SubmissionFetch])%list)
    ∧ ∀ r c, ws !! (r, c)
        = match r with
          | 0%nat => VStr <$> map (heading strip_tags) (get_data_fields object) !! c
          | S r' =>
              item ← queryset !! r';
              map snd (data_dict (get_data_fields object) item) !! c
          end.
Proof.
  intros Hget. unfold write_xlsx.
  destruct (write_items_cells (get_data_fields object) queryset
              (write_headings ∅ 0 (map (heading strip_tags) (get_data_fields object)))
              0) as (ws & Hws & Hcells).
  exists ws. split.
  - unfold mbind, M_bind, execute, lift. rewrite Hget. simpl. by rewrite Hws.
  - intros r c. rewrite Hcells, headings_sheet_lookup. unfold written.
    destruct r as [|r'].
    + by rewrite decide_False by lia.
    + rewrite decide_True by lia.
      replace (S r' - 0 - 1)%nat with r' by lia.
      by destruct (queryset !! r' ≫= _).
Qed.

(** ** The two exports *)

Lemma csv_run (strip_tags : string → string) (db : Database) (object : Form)
    (ff : BoundForm) (log : list db_query) :
  csv strip_tags db object ff log
  = match get_queryset db object ff with
    | Ok queryset =>
        (Ok {| status_code := 200;
               content_type := "text/csv; charset=utf-8";
               content_disposition := Some "attachment;filename=export.csv";
               content :=
                 CsvRows (map (heading strip_tags) (get_data_fields object)
                            :: map (csv_row (get_data_fields object)) queryset) |},
         (log ++ [SubmissionFetch])%list)
    | Raise e => (Raise e, log)
    end.
Proof.
  unfold csv, mbind, M_bind, lift, execute, mret, M_ret.
  by destruct (get_queryset db object ff).
Qed.

(** The XLSX response: the workbook, when the date format of the locale
    can be made; the [AttributeError] of the formatter otherwise. *)
Lemma write_xlsx_response_run (strip_tags : string → string)
    (re_formatchars : ascii → bool) (get_format : string → string)
    (object : Form) (queryset : list Submission) (log : list db_query) :
  match ExcelDateFormatter.get re_formatchars get_format with
  | ExcelDateFormatter.Attr _ =>
      ∃ r, write_xlsx_response strip_tags re_formatchars get_format
             SubmissionListView object queryset log
           = (Ok r, (log ++ [SubmissionFetch])%list)
        ∧ status_code r = 200%nat
        ∧ ∀ row col, xlsx_cell r row col
            = match row with
              | 0%nat =>
                  VStr <$> map (heading strip_tags) (get_data_fields object) !! col
              | S n =>
                  item ← queryset !! n;
                  map snd (data_dict (get_data_fields object) item) !! col
              end
  | ExcelDateFormatter.AttributeError msg =>
      write_xlsx_response strip_tags re_formatchars get_format
        SubmissionListView object queryset log
      = (Raise (AttributeError msg), log)
  end.
Proof.
  destruct (ExcelDateFormatter.get re_formatchars get_format) as [excel|msg] eqn:Hget.
  - destruct (write_xlsx_cells_of strip_tags re_formatchars get_format object
                queryset log excel Hget) as (ws & Hrun & Hcells).
    eexists. split; [|split].
    + unfold write_xlsx_response, mbind, M_bind, mret, M_ret. rewrite Hrun.
      reflexivity.
    + reflexivity.
    + intros row col. unfold xlsx_cell. simpl. apply Hcells.
  - unfold write_xlsx_response, mbind, M_bind.
    by rewrite (write_xlsx_no_date_format _ _ _ _ _ _ _ msg Hget).
Qed.

(** C6. The header row of the CSV export and of the XLSX export is the
    list of the form's field labels with the HTML tags stripped, in the
    order of the form's schema: the first row of the CSV (whenever the
    query can be built; otherwise its error is raised), and row 0 of the
    worksheet, cell by cell (whenever the workbook can be made; otherwise
    the error of the date formatter is raised). *)
Theorem export_header_rows (strip_tags : string → string)
    (re_formatchars : ascii → bool) (get_format : string → string)
    (db : Database) (object : Form) (ff : BoundForm)
    (queryset : list Submission) (log : list db_query) :
  let labels := map (λ field, strip_tags field.2) (get_data_fields object) in
  match get_queryset db object ff with
  | Ok _ =>
      ∃ r log', csv strip_tags db object ff log = (Ok r, log')
        ∧ csv_header r = Some labels
  | Raise e => csv strip_tags db object ff log = (Raise e, log)
  end
  ∧ match ExcelDateFormatter.get re_formatchars get_format with
    | ExcelDateFormatter.Attr _ =>
        ∃ r log',
          write_xlsx_response strip_tags re_formatchars get_format
            SubmissionListView object queryset log
          = (Ok r, log')
          ∧ ∀ col, xlsx_cell r 0 col = VStr <$> labels !! col
    | ExcelDateFormatter.AttributeError msg =>
        write_xlsx_response strip_tags re_formatchars get_format
          SubmissionListView object queryset log
        = (Raise (AttributeError msg), log)
    end.
Proof.
  intros labels. split.
  - rewrite csv_run. destruct (get_queryset db object ff) as [qs|e]; [|done].
    eexists _, _. split; [reflexivity|]. reflexivity.
  - pose proof (write_xlsx_response_run strip_tags re_formatchars get_format
                  object queryset log) as Hxlsx.
    destruct (ExcelDateFormatter.get re_formatchars get_format) as [excel|msg];
      [|exact Hxlsx].
    destruct Hxlsx as (r & Hrun & _ & Hcells).
    exists r, (log ++ [SubmissionFetch])%list. split; [done|].
    intros col. by rewrite (Hcells 0%nat col).
Qed.

Lemma remove_dups_length_le (l : list string) :
  (length (remove_dups l) ≤ length l)%nat.
Proof.
  induction l as [|x r IH]; simpl; [done|].
  destruct (decide_rel elem_of x r); simpl; lia.
Qed.

Lemma remove_dups_length_NoDup (l : list string) :
  length (remove_dups l) = length l → NoDup l.
Proof.
  induction l as [|x r IH]; simpl; intros Hlen; [apply NoDup_nil_2|].
  pose proof (remove_dups_length_le r) as Hle.
  destruct (decide_rel elem_of x r) as [Hin|Hnin]; simpl in Hlen; [lia|].
  apply NoDup_cons. split; [done|]. apply IH. lia.
Qed.

(** C10. In the XLSX export the row of a submission is built as a
    dictionary keyed by field label: the cells of the row are the values
    of that dictionary in order (whenever the workbook can be made;
    otherwise the error of the date formatter is raised), one per
    distinct label; under a label it holds the text of the last schema
    field with that label; so the row never has more cells than the
    header, and has fewer as soon as two fields share a label. *)
Theorem xlsx_row_keyed_by_label (strip_tags : string → string)
    (re_formatchars : ascii → bool) (get_format : string → string)
    (object : Form) (queryset : list Submission) (log : list db_query) (n : nat)
    (item : Submission) :
  queryset !! n = Some item →
  let data_fields := get_data_fields object in
  let labels := map snd data_fields in
  let row := data_dict data_fields item in
  match ExcelDateFormatter.get re_formatchars get_format with
  | ExcelDateFormatter.Attr _ =>
      ∃ r log',
        write_xlsx_response strip_tags re_formatchars get_format
          SubmissionListView object queryset log
        = (Ok r, log')
        ∧ (∀ col, xlsx_cell r (S n) col = map snd row !! col)
  | ExcelDateFormatter.AttributeError msg =>
      write_xlsx_response strip_tags re_formatchars get_format
        SubmissionListView object queryset log
      = (Raise (AttributeError msg), log)
  end
  ∧ NoDup (map fst row)
  ∧ (∀ label, label ∈ map fst row ↔ label ∈ labels)
  ∧ length row = length (remove_dups labels)
  ∧ (∀ label, od_lookup label row = cell_text item <$> last_named label data_fields)
  ∧ (length row ≤ length data_fields)%nat
  ∧ (¬ NoDup labels → (length row < length data_fields)%nat).
Proof.
  intros Hitem data_fields labels row.
  assert (length row = length (remove_dups labels)) as Hlen.
  { rewrite <- (length_map fst row). unfold row. rewrite data_dict_keys.
    apply distinct_length. }
  assert (length labels = length data_fields) as Hlabels by apply length_map.
  pose proof (remove_dups_length_le labels) as Hle.
  split; [|repeat split].
  - pose proof (write_xlsx_response_run strip_tags re_formatchars get_format
                  object queryset log) as Hxlsx.
    destruct (ExcelDateFormatter.get re_formatchars get_format) as [excel|msg];
      [|exact Hxlsx].
    destruct Hxlsx as (r & Hrun & _ & Hcells).
    exists r, (log ++ [SubmissionFetch])%list. split; [done|].
    intros col. rewrite (Hcells (S n) col), Hitem. reflexivity.
  - unfold row. rewrite data_dict_keys. apply distinct_NoDup.
  - unfold row. rewrite data_dict_keys. apply distinct_elem.
  - unfold row. rewrite data_dict_keys. apply distinct_elem.
  - done.
  - intros label. apply data_dict_lookup.
  - lia.
  - intros Hdup. destruct (decide (length (remove_dups labels) = length labels)) as [Heq|Hne].
    + destruct Hdup. by apply remove_dups_length_NoDup.
    + lia.
Qed.

(** The cell of a field in the two exports: the text of the value in the
    CSV, and the same text in the workbook when no two fields share a
    label and the workbook can be made. *)
Lemma export_cells (strip_tags : string → string)
    (re_formatchars : ascii → bool) (get_format : string → string)
    (db : Database) (object : Form)
    (ff : BoundForm) (queryset : list Submission) (log : list db_query)
    (n i : nat) (item : Submission) (name label excel : string) :
  get_queryset db object ff = Ok queryset →
  queryset !! n = Some item →
  get_data_fields object !! i = Some (name, label) →
  (∃ r log', csv strip_tags db object ff log = (Ok r, log')
     ∧ csv_cell r (S n) i = Some (force_str (dict_get (get_data item) name)))
  ∧ (NoDup (map snd (get_data_fields object)) →
     ExcelDateFormatter.get re_formatchars get_format
     = ExcelDateFormatter.Attr excel →
     ∃ r log',
       write_xlsx_response strip_tags re_formatchars get_format
         SubmissionListView object queryset log
       = (Ok r, log')
       ∧ xlsx_cell r (S n) i
         = Some (VStr (force_str (dict_get (get_data item) name)))).
Proof.
  intros Hqs Hitem Hfield. split.
  - rewrite csv_run, Hqs. eexists _, _. split; [reflexivity|].
    unfold csv_cell. simpl.
    change (map (csv_row (get_data_fields object)) queryset)
      with (csv_row (get_data_fields object) <$> queryset).
    rewrite list_lookup_fmap, Hitem. simpl. unfold csv_row.
    change (map ?f ?l) with (f <$> l).
    by rewrite list_lookup_fmap, Hfield.
  - intros Hnd Hget.
    pose proof (write_xlsx_response_run strip_tags re_formatchars get_format
                  object queryset log) as Hxlsx.
    rewrite Hget in Hxlsx. destruct Hxlsx as (r & Hrun & _ & Hcells).
    exists r, (log ++ [SubmissionFetch])%list. split; [done|].
    rewrite (Hcells (S n) i), Hitem. simpl.
    rewrite (data_dict_NoDup _ _ Hnd).
    change (map ?f ?l) with (f <$> l).
    by rewrite <- list_fmap_compose, list_lookup_fmap, Hfield.
Qed.

(** The CSV export renders a field that the data of a submission lacks as
    the text [None], whatever the schema. *)
Lemma csv_missing_value (strip_tags : string → string) (db : Database)
    (object : Form) (ff : BoundForm) (queryset : list Submission)
    (log : list db_query) (n i : nat) (item : Submission) (name label : string) :
  get_queryset db object ff = Ok queryset →
  queryset !! n = Some item →
  get_data_fields object !! i = Some (name, label) →
  get_data item !! name = None →
  ∃ r log', csv strip_tags db object ff log = (Ok r, log')
    ∧ csv_cell r (S n) i = Some "None".
Proof.
  intros Hqs Hitem Hfield Hmissing.
  destruct (export_cells strip_tags (λ _, false) (λ _, "") db object ff queryset
              log n i item name label "" Hqs Hitem Hfield) as [Hcsv _].
  unfold dict_get in Hcsv. by rewrite Hmissing in Hcsv.
Qed.

Lemma xlsx_row_keyed_by_label_witness :
  let data_fields := get_data_fields Sample.survey in
  let row := data_dict data_fields Sample.s3 in
  (∃ r log',
     write_xlsx_response Sample.strip_tags Sample.re_formatchars Sample.get_format
       SubmissionListView Sample.survey [Sample.s3] [] = (Ok r, log')
     ∧ (∀ col, xlsx_cell r 1 col = map snd row !! col))
  ∧ NoDup (map fst row)
  ∧ (∀ label, label ∈ map fst row ↔ label ∈ map snd data_fields)
  ∧ length row = length (remove_dups (map snd data_fields))
  ∧ (∀ label, od_lookup label row
              = cell_text Sample.s3 <$> last_named label data_fields)
  ∧ (length row ≤ length data_fields)%nat
  ∧ (¬ NoDup (map snd data_fields) → (length row < length data_fields)%nat).
Proof.
  exact (xlsx_row_keyed_by_label Sample.strip_tags Sample.re_formatchars
           Sample.get_format Sample.survey [Sample.s3] [] 0 Sample.s3 eq_refl).
Defined.

(** C9, at a form whose two fields share the label [Name]. The
    submission lacks the field [first]. The CSV export renders it as the
    text [None], next to the value of [second]; the XLSX row, a
    dictionary keyed by label, has one cell for the two fields, and the
    cell under the header of [first] holds the value of [second]: the
    text [None] is nowhere in the row, which is a cell shorter than the
    header above it. *)
Theorem xlsx_shared_label_hides_missing_value :
  get_data_fields Sample.survey = [("first", "Name"); ("second", "Name")]
  ∧ get_data Sample.s3 !! "first" = None
  ∧ (∃ r log',
       csv Sample.strip_tags Sample.db Sample.survey Sample.no_filter []
       = (Ok r, log')
       ∧ csv_cell r 0 0 = Some "Name" ∧ csv_cell r 0 1 = Some "Name"
       ∧ csv_cell r 1 0 = Some "None" ∧ csv_cell r 1 1 = Some "x")
  ∧ ∃ r log',
      write_xlsx_response Sample.strip_tags Sample.re_formatchars
        Sample.get_format SubmissionListView Sample.survey [Sample.s3] []
      = (Ok r, log')
      ∧ xlsx_cell r 0 0 = Some (VStr "Name") ∧ xlsx_cell r 0 1 = Some (VStr "Name")
      ∧ xlsx_cell r 1 0 = Some (VStr "x")
      ∧ xlsx_cell r 1 1 = None.
Proof.
  split; [reflexivity|]. split; [reflexivity|]. split.
  - eexists _, _. split; [vm_compute; reflexivity|].
    repeat split; vm_compute; reflexivity.
  - eexists _, _. split; [vm_compute; reflexivity|].
    repeat split; vm_compute; reflexivity.
Qed.

(** *** The text of a list is never the joined text *)

Lemma string_length_app (s1 s2 : string) :
  String.length (s1 +:+ s2) = (String.length s1 + String.length s2)%nat.
Proof. induction s1 as [|c r IH]; simpl; [done|]. by rewrite IH. Qed.

Lemma repr_char_length (q c : ascii) : (1 ≤ String.length (repr_char q c))%nat.
Proof.
  unfold repr_char. repeat (case_decide; [simpl; lia|]). simpl. lia.
Qed.

Lemma repr_chars_length (q : ascii) (s : string) :
  (String.length s ≤ String.length (repr_chars q s))%nat.
Proof.
  induction s as [|c r IH]; simpl; [done|].
  rewrite string_length_app. pose proof (repr_char_length q c). lia.
Qed.

Lemma repr_str_length (s : string) :
  (String.length s + 2 ≤ String.length (repr_str s))%nat.
Proof.
  unfold repr_str. simpl. rewrite string_length_app. simpl.
  match goal with |- context [repr_chars ?q s] =>
    pose proof (repr_chars_length q s) end.
  lia.
Qed.

Lemma join_repr_length (l : list string) :
  (String.length (join ", " l) ≤ String.length (join ", " (map repr_str l)))%nat.
Proof.
  induction l as [|x [|y r] IH].
  - done.
  - cbn [join map]. pose proof (repr_str_length x). lia.
  - change (join ", " (x :: y :: r)) with (x +:+ ", " +:+ join ", " (y :: r)).
    change (join ", " (map repr_str (x :: y :: r)))
      with (repr_str x +:+ ", " +:+ join ", " (map repr_str (y :: r))).
    rewrite !string_length_app. pose proof (repr_str_length x). lia.
Qed.

(** Whatever the list, [force_str] of it differs from what [list_to_str]
    gives. *)
Lemma list_text_not_joined (l : list string) :
  force_str (VList l) ≠ join ", " l.
Proof.
  intros Heq. apply (f_equal String.length) in Heq.
  unfold force_str in Heq. rewrite !string_length_app in Heq.
  cbn [String.length] in Heq.
  pose proof (join_repr_length l). lia.
Qed.

(** So for every list-valued field the CSV cell, and the XLSX cell of a
    schema with distinct labels, hold the text of the list and not the
    joined elements. *)
Lemma list_value_cells (strip_tags : string → string)
    (re_formatchars : ascii → bool) (get_format : string → string)
    (db : Database)
    (object : Form) (ff : BoundForm) (queryset : list Submission)
    (log : list db_query) (n i : nat) (item : Submission)
    (name label excel : string) (l : list string) :
  get_queryset db object ff = Ok queryset →
  queryset !! n = Some item →
  get_data_fields object !! i = Some (name, label) →
  get_data item !! name = Some (VList l) →
  (∃ r log', csv strip_tags db object ff log = (Ok r, log')
     ∧ csv_cell r (S n) i = Some (force_str (VList l))
     ∧ csv_cell r (S n) i ≠ Some (join ", " l))
  ∧ (NoDup (map snd (get_data_fields object)) →
     ExcelDateFormatter.get re_formatchars get_format
     = ExcelDateFormatter.Attr excel →
     ∃ r log',
       write_xlsx_response strip_tags re_formatchars get_format
         SubmissionListView object queryset log
       = (Ok r, log')
       ∧ xlsx_cell r (S n) i = Some (VStr (force_str (VList l)))
       ∧ xlsx_cell r (S n) i ≠ Some (VStr (join ", " l))).
Proof.
  intros Hqs Hitem Hfield Hlist.
  destruct (export_cells strip_tags re_formatchars get_format db object ff
              queryset log n i item name label excel Hqs Hitem Hfield)
    as [Hcsv Hxlsx].
  unfold dict_get in Hcsv, Hxlsx. rewrite Hlist in Hcsv, Hxlsx. simpl in Hcsv, Hxlsx.
  pose proof (list_text_not_joined l) as Hne. split.
  - destruct Hcsv as (r & log' & Hrun & Hcell). exists r, log'.
    split; [done|]. split; [done|]. rewrite Hcell. intros [= Heq]. by apply Hne.
  - intros Hnd Hget. destruct (Hxlsx Hnd Hget) as (r & log' & Hrun & Hcell).
    exists r, log'.
    split; [done|]. split; [done|]. rewrite Hcell. intros [= Heq]. by apply Hne.
Qed.

(** C2, at a list-valued field. The submission holds the list
    [["red"; "green"]]; the CSV cell and the XLSX cell are both the text
    of the list's [repr], while [list_to_str], which the view declares for
    lists in both formats, gives the joined text. *)
Theorem list_value_exported_as_repr :
  get_data Sample.s1 !! "colours" = Some (VList ["red"; "green"])
  ∧ (∃ r log', csv Sample.strip_tags Sample.db Sample.contact Sample.no_filter []
               = (Ok r, log')
       ∧ csv_cell r 1 1 = Some "['red', 'green']")
  ∧ (∃ r log',
       write_xlsx_response Sample.strip_tags Sample.re_formatchars
         Sample.get_format SubmissionListView Sample.contact
         [Sample.s1; Sample.s2] [] = (Ok r, log')
       ∧ xlsx_cell r 1 1 = Some (VStr "['red', 'green']"))
  ∧ list_to_str (VList ["red"; "green"]) = Ok (VStr "red, green").
Proof.
  split; [vm_compute; reflexivity|]. split; [|split; [|reflexivity]].
  - eexists _, _. split; vm_compute; reflexivity.
  - eexists _, _. split; vm_compute; reflexivity.
Qed.

(** ** The preprocessing function of an XLSX cell *)

Lemma value_class_function_xlsx (v : value) :
  value_class_function (custom_value_preprocess SubmissionListView) v FORMAT_XLSX
  = match v with
    | VList _ => Some list_to_str
    | VDate _ | VTime _ | VDateTime _ _ => None
    | _ => Some force_str_fn
    end.
Proof. destruct v; reflexivity. Qed.

Lemma get_preprocess_function_priority (cfp : gmap string format_dict)
    (field : string) (v : value) :
  get_preprocess_function (with_field_preprocess cfp) field v FORMAT_XLSX
  = preprocess_by_priority cfp field v.
Proof.
  unfold get_preprocess_function, preprocess_by_priority. simpl.
  destruct (cfp !! field) as [fd|]; simpl.
  - destruct (fd !! FORMAT_XLSX); [done|]. apply value_class_function_xlsx.
  - rewrite lookup_empty. apply value_class_function_xlsx.
Qed.

Lemma write_xlsx_cells_mapM (self : view_class) (items : list (string * value))
    (ws : worksheet) (r c : nat) :
  write_xlsx_cells self ws r c items
  = (vals ← mapM (stored self) items; Ok (write_row ws r c vals)).
Proof.
  revert ws c. induction items as [|[field v] rest IH]; intros ws c;
    [reflexivity|].
  cbn [write_xlsx_cells mapM].
  destruct (apply_preprocess (get_preprocess_function self field v FORMAT_XLSX) v)
    as [cell|e] eqn:Hcell.
  - assert (stored self (field, v)
            = match cell with VList _ => Raise TypeError | _ => Ok cell end) as ->.
    { unfold stored, processed. cbn [fst snd]. by rewrite Hcell. }
    destruct cell; unfold mbind, result_bind, worksheet_write;
      try reflexivity;
      rewrite IH; unfold mbind, result_bind;
      by destruct (mapM (stored self) rest).
  - assert (stored self (field, v) = Raise e) as ->.
    { unfold stored, processed. cbn [fst snd]. by rewrite Hcell. }
    reflexivity.
Qed.

(** C4, at a submission with a text, a list and a date-time, exported by
    a subclass of the view that overrides the preprocessing of the field
    [name] for xlsx. By the priority order the three cells are: the
    text as the override of the field makes it, the list joined with a
    comma and a space, and the date-time unchanged, a native cell; that
    is what [get_preprocess_function] chooses, called with the field
    name and the value. The export calls it with the label and with the
    text of the value: the override of [name] is not applied, the list is
    written as the text of its [repr], and the date-time as text. *)
Theorem xlsx_export_bypasses_preprocessing :
  let self :=
    with_field_preprocess {[ "name" := {[ FORMAT_XLSX := Some Sample.tagged ]} ]} in
  let when := VDateTime Sample.july_4th Sample.half_past_six in
  get_data_fields Sample.booking
  = [("name", "Name"); ("colours", "Colours"); ("when", "When")]
  ∧ get_data Sample.s4 !! "name" = Some (VStr "Ann")
  ∧ get_data Sample.s4 !! "colours" = Some (VList ["red"; "green"])
  ∧ get_data Sample.s4 !! "when" = Some when
  ∧ processed self ("name", VStr "Ann") = Ok (VStr "<Ann>")
  ∧ processed self ("colours", VList ["red"; "green"]) = Ok (VStr "red, green")
  ∧ processed self ("when", when) = Ok when
  ∧ ∃ r log',
      write_xlsx_response Sample.strip_tags Sample.re_formatchars
        Sample.get_format self Sample.booking [Sample.s4] []
      = (Ok r, log')
      ∧ xlsx_cell r 1 0 = Some (VStr "Ann")
      ∧ xlsx_cell r 1 1 = Some (VStr "['red', 'green']")
      ∧ xlsx_cell r 1 2 = Some (VStr "2021-07-04 18:30:00").
Proof.
  intros self when.
  do 7 (split; [vm_compute; reflexivity|]).
  eexists _, _. split; [vm_compute; reflexivity|].
  repeat split; vm_compute; reflexivity.
Qed.

(** ** The submission query *)

Lemma get_queryset_elem (db : Database) (object : Form) (ff : BoundForm)
    (queryset : list Submission) (s : Submission) :
  get_queryset db object ff = Ok queryset →
  s ∈ queryset ↔
    s ∈ form_submissions db object
    ∧ (is_valid ff = true →
       (∀ f, date_from ff = Some f → (f ≤ submit_time s)%Z)
       ∧ (∀ t, date_to ff = Some t → (submit_time s ≤ t + one_day)%Z)).
Proof.
  unfold get_queryset. fold (form_submissions db object).
  destruct ff as [valid from to]; simpl. destruct valid.
  - destruct to as [t|]; simpl.
    + unfold add_one_day. destruct (decide (t + one_day ≤ max_time)%Z); [|done].
      simpl. intros [= <-]. rewrite list_elem_of_filter.
      destruct from as [f|]; [rewrite list_elem_of_filter|];
        intuition (simplify_eq; eauto).
    + intros [= <-].
      destruct from as [f|]; [rewrite list_elem_of_filter|];
        intuition (simplify_eq; eauto).
  - intros [= <-]. intuition (simplify_eq; eauto).
Qed.

(** The upper bound is inclusive: the submission stamped one day after
    [date_to], to the microsecond, is kept. *)
Lemma get_queryset_keeps_next_day (db : Database) (object : Form)
    (from : option Z) (t : Z) (queryset : list Submission) (s : Submission) :
  get_queryset db object {| is_valid := true; date_from := from; date_to := Some t |}
  = Ok queryset →
  s ∈ form_submissions db object →
  (∀ f, from = Some f → (f ≤ submit_time s)%Z) →
  submit_time s = (t + one_day)%Z →
  s ∈ queryset.
Proof.
  intros Hqs Hs Hfrom Htime. apply (get_queryset_elem _ _ _ _ s Hqs).
  split; [done|]. intros _. simpl. split; [done|].
  intros t' [= <-]. lia.
Qed.

(** C1, at the boundary. With [date_to] the day of ordinal 738000 and
    no [date_from], the query returns the submission stamped at the
    midnight that opens the next day, which the claim excludes. *)
Theorem date_to_keeps_next_midnight :
  let ff := SelectDateForm Sample.to_python {[ "date_to" := "738000" ]} in
  ff = {| is_valid := true; date_from := None; date_to := Some (midnight 738000) |}
  ∧ submit_time Sample.s2 = midnight (738000 + 1)
  ∧ submit_time Sample.s2 = (midnight 738000 + one_day)%Z
  ∧ get_queryset Sample.db Sample.contact ff = Ok [Sample.s1; Sample.s2].
Proof. repeat split; vm_compute; reflexivity. Qed.

(** C7. When the filter form is invalid, or holds neither bound, the
    query is the unfiltered list of the form's submissions and nothing
    is raised. *)
Theorem invalid_or_missing_filter_ignored (db : Database) (object : Form)
    (ff : BoundForm) :
  is_valid ff = false ∨ (date_from ff = None ∧ date_to ff = None) →
  get_queryset db object ff = Ok (form_submissions db object).
Proof.
  unfold get_queryset. fold (form_submissions db object).
  intros [Hinvalid|[Hfrom Hto]].
  - by rewrite Hinvalid.
  - rewrite Hfrom, Hto. by destruct (is_valid ff).
Qed.

Lemma invalid_or_missing_filter_ignored_witness :
  get_queryset Sample.db Sample.contact
    {| is_valid := false; date_from := Some (midnight 738001); date_to := None |}
  = Ok (form_submissions Sample.db Sample.contact).
Proof.
  apply (invalid_or_missing_filter_ignored Sample.db Sample.contact).
  left. reflexivity.
Defined.

(** A bound that is absent alone is not applied either; the other one
    still is. *)
Lemma missing_bound_not_applied (db : Database) (object : Form) (f t : Z) :
  get_queryset db object {| is_valid := true; date_from := Some f; date_to := None |}
  = Ok (filter (λ s, (f ≤ submit_time s)%Z) (form_submissions db object))
  ∧ ((t + one_day ≤ max_time)%Z →
     get_queryset db object {| is_valid := true; date_from := None; date_to := Some t |}
     = Ok (filter (λ s, (submit_time s ≤ t + one_day)%Z) (form_submissions db object))).
Proof.
  split; [reflexivity|]. intros Hmax.
  unfold get_queryset, add_one_day. simpl. by rewrite decide_True.
Qed.

(** What the filter form makes of the query parameters: a bound that
    does not parse invalidates the form, and absent bounds clean to
    nothing. *)
Lemma SelectDateForm_unparsed (to_python : string → option Z)
    (data : gmap string string) (name raw : string) :
  name = "date_from" ∨ name = "date_to" →
  data !! name = Some raw → raw ≠ "" → to_python raw = None →
  is_valid (SelectDateForm to_python data) = false.
Proof.
  intros Hname Hraw Hne Hparse. unfold SelectDateForm.
  assert (clean_date to_python data name = None) as Hclean.
  { unfold clean_date. rewrite Hraw, decide_False by done. by rewrite Hparse. }
  destruct Hname as [-> | ->]; rewrite Hclean.
  - done.
  - by destruct (clean_date to_python data "date_from").
Qed.

Lemma SelectDateForm_absent (to_python : string → option Z)
    (data : gmap string string) :
  data !! "date_from" = None → data !! "date_to" = None →
  SelectDateForm to_python data
  = {| is_valid := true; date_from := None; date_to := None |}.
Proof.
  intros Hfrom Hto. unfold SelectDateForm, clean_date. by rewrite Hfrom, Hto.
Qed.

(** ** Looking up the form and checking the permission *)

Section Dispatch.
Variable strip_tags : string → string.
Variable to_python : string → option Z.
Variable int : string → option Z.
Variable re_formatchars : ascii → bool.
Variable get_format : string → string.
Variable get_hooks : list (list Form → HttpRequest → list Form).
Variable user_can_list : string → bool.
Variable permission_queries : string → nat.
Variable user_can_delete_obj : string → Form → bool.
Variable db : Database.
Variable self : view_class.

Lemma get_object_run (request : HttpRequest) (pk_ : option Z)
    (log : list db_query) :
  get_object get_hooks db request pk_ log
  = (match resolved get_hooks db request pk_ with
     | [] => Raise (Http404 "No Form found matching the query")
     | [object] => Ok object
     | _ => Raise MultipleObjectsReturned
     end, (log ++ [FormGet pk_])%list).
Proof.
  unfold get_object, try_except, queryset_get, mbind, M_bind, execute, resolved,
    visible_forms.
  destruct (filter _ _) as [|object [|other rest]]; reflexivity.
Qed.

Lemma dispatch_run (request : HttpRequest) (pk_ : option Z) (log : list db_query) :
  dispatch strip_tags to_python int re_formatchars get_format get_hooks
    user_can_list permission_queries user_can_delete_obj db self request pk_ log
  = match resolved get_hooks db request pk_ with
    | [] => (Raise (Http404 "No Form found matching the query"),
             (log ++ [FormGet pk_])%list)
    | [object] =>
        let log' :=
          (log ++ FormGet pk_
             :: replicate (permission_queries (user request)) AuthPermission)%list in
        if user_can_list (user request) then
          view_dispatch strip_tags to_python int re_formatchars get_format
            user_can_delete_obj db self request object log'
        else (Raise PermissionDenied, log')
    | _ => (Raise MultipleObjectsReturned, (log ++ [FormGet pk_])%list)
    end.
Proof.
  unfold dispatch, mbind, M_bind. rewrite get_object_run.
  destruct (resolved get_hooks db request pk_) as [|object [|other rest]]; try reflexivity.
  unfold permission_helper_user_can_list. rewrite <- app_assoc. simpl.
  by destruct (user_can_list (user request)).
Qed.

(** C5. When the form id resolves to no form among those the hooks leave
    visible, the view raises [Http404] after the lookup, and returns no
    response, whatever the user, the method and the query parameters. *)
Theorem unknown_form_not_found (request : HttpRequest) (pk_ : option Z)
    (log : list db_query) :
  resolved get_hooks db request pk_ = [] →
  let outcome :=
    dispatch strip_tags to_python int re_formatchars get_format get_hooks
      user_can_list permission_queries user_can_delete_obj db self request pk_
      log in
  outcome = (Raise (Http404 "No Form found matching the query"),
             (log ++ [FormGet pk_])%list)
  ∧ ∀ response, outcome.1 ≠ Ok response.
Proof.
  intros Hnone outcome. unfold outcome. rewrite dispatch_run, Hnone.
  split; [done|]. intros response. simpl. discriminate.
Qed.

(** C3, as amended. For a user without the list permission and a form
    id that resolves, the view raises [PermissionDenied] and returns no
    response; the lookup of the form has been executed before that, and
    after it the lookups that the permission check itself runs; the
    submissions are never queried, neither counted nor fetched. *)
Theorem permission_denied_after_form_lookup (request : HttpRequest)
    (pk_ : option Z) (object : Form) (log : list db_query) :
  user_can_list (user request) = false →
  resolved get_hooks db request pk_ = [object] →
  let queries :=
    FormGet pk_ :: replicate (permission_queries (user request)) AuthPermission in
  dispatch strip_tags to_python int re_formatchars get_format get_hooks
    user_can_list permission_queries user_can_delete_obj db self request pk_ log
  = (Raise PermissionDenied, (log ++ queries)%list)
  ∧ (SubmissionCount ∉ queries) ∧ (SubmissionFetch ∉ queries).
Proof.
  intros Hperm Hobject queries. split.
  - by rewrite dispatch_run, Hobject, Hperm.
  - unfold queries.
    split; intros [Heq|[Heq _]%elem_of_replicate]%elem_of_cons; discriminate.
Qed.

End Dispatch.

Lemma unknown_form_not_found_witness :
  let outcome := Sample.run (Sample.request "editor" ∅) (Some 7%Z) in
  outcome = (Raise (Http404 "No Form found matching the query"),
             [FormGet (Some 7%Z)])
  ∧ ∀ response, outcome.1 ≠ Ok response.
Proof.
  apply (unknown_form_not_found Sample.strip_tags Sample.to_python Sample.int
           Sample.re_formatchars Sample.get_format []
           Sample.user_can_list Sample.permission_queries
           Sample.user_can_delete_obj Sample.db
           SubmissionListView (Sample.request "editor" ∅) (Some 7%Z) []).
  reflexivity.
Defined.

Lemma permission_denied_after_form_lookup_witness :
  let queries := [FormGet (Some 1%Z); AuthPermission; AuthPermission] in
  Sample.run (Sample.request "guest" {[ "action" := "CSV" ]}) (Some 1%Z)
  = (Raise PermissionDenied, queries)
  ∧ (SubmissionCount ∉ queries) ∧ (SubmissionFetch ∉ queries).
Proof.
  apply (permission_denied_after_form_lookup Sample.strip_tags Sample.to_python
           Sample.int Sample.re_formatchars Sample.get_format []
           Sample.user_can_list Sample.permission_queries
           Sample.user_can_delete_obj Sample.db
           SubmissionListView (Sample.request "guest" {[ "action" := "CSV" ]})
           (Some 1%Z) Sample.contact []); reflexivity.
Defined.

(** The claim C3 fails twice: the form is looked up before the
    permission is checked, so a query has run when access is denied, and
    a user without the permission who asks for an unknown form is told
    that it is not found. *)
Lemma form_lookup_precedes_permission_check :
  Sample.user_can_list "guest" = false
  ∧ Sample.run (Sample.request "guest" ∅) (Some 1%Z)
    = (Raise PermissionDenied,
       [FormGet (Some 1%Z); AuthPermission; AuthPermission])
  ∧ Sample.run (Sample.request "guest" ∅) (Some 7%Z)
    = (Raise (Http404 "No Form found matching the query"), [FormGet (Some 7%Z)]).
Proof. repeat split; vm_compute; reflexivity. Qed.

(** ** Pages of the listing, and the exports *)

Lemma paginator_page_slice (l : list Submission) (per_page : nat) (n : Z) :
  (1 ≤ n ≤ Z.of_nat (num_pages (length l) per_page))%Z →
  paginator_page l per_page n
  = Ok (take per_page (drop ((Z.to_nat n - 1) * per_page) l)).
Proof.
  intros Hn. unfold paginator_page, validate_number.
  rewrite decide_False by lia. rewrite decide_False by lia. simpl.
  f_equal. unfold slice.
  set (bottom := ((Z.to_nat n - 1) * per_page)%nat).
  destruct (decide (length l ≤ bottom + per_page)%nat) as [Hlast|Hfull].
  - rewrite (take_ge (drop bottom l)) by (rewrite length_drop; lia).
    rewrite (take_ge (drop bottom l)) by (rewrite length_drop; lia). done.
  - f_equal. lia.
Qed.


Lemma get_html_page (strip_tags : string → string)
    (to_python int : string → option Z)
    (re_formatchars : ascii → bool) (get_format : string → string)
    (user_can_delete_obj : string → Form → bool) (db : Database)
    (request : HttpRequest) (object : Form) (queryset : list Submission)
    (n : Z) (log : list db_query) :
  GET request !! "action" ≠ Some "CSV" →
  GET request !! "action" ≠ Some "EXCEL" →
  get_queryset db object (SelectDateForm to_python (GET request)) = Ok queryset →
  requested_page int SubmissionListView request = page_number n →
  (1 ≤ n ≤ Z.of_nat (num_pages (length queryset) 25))%Z →
  let page := take 25 (drop ((Z.to_nat n - 1) * 25) queryset) in
  get strip_tags to_python int re_formatchars get_format user_can_delete_obj db
    SubmissionListView request object log
  = (Ok {| status_code := 200;
           content_type := "text/html; charset=utf-8";
           content_disposition := None;
           content :=
             Html {| filter_form := SelectDateForm to_python (GET request);
                     data_rows := map (data_row (get_data_fields object)) page;
                     data_headings := map snd (get_data_fields object);
                     has_delete_permission :=
                       user_can_delete_obj (user request) object |} |},
     (log ++ listing_queries page)%list).
Proof.
  intros Hcsv Hxlsx Hqs Hpage Hn page. unfold get.
  rewrite decide_False by done. rewrite decide_False by done.
  unfold list_view_get, mbind, M_bind, lift. rewrite Hqs.
  unfold get_context_data. simpl paginate_by.
  rewrite decide_False by done.
  unfold mbind, M_bind, paginate_queryset. rewrite Hpage.
  rewrite (decide_False (P := (n < 1)%Z)) by lia.
  unfold mbind, M_bind, execute, try_except, lift.
  change (paginate_by SubmissionListView) with 25%nat.
  rewrite (paginator_page_slice queryset 25 n Hn). fold page.
  unfold listing_queries, mret, M_ret.
  destruct page; by rewrite <- ?app_assoc.
Qed.



(** * More of the module *)

(** ** The Excel date format *)

Module ExcelDateFormatterProperties.
Import ExcelDateFormatter.

(** Whether a text ends with a backslash. *)
Fixpoint ends_with_backslash (s : string) : bool :=
  match s with
  | EmptyString => false
  | String c EmptyString => bool_decide (c = backslash)
  | String _ r => ends_with_backslash r
  end.

(** The character [c], found in a format string after the text
    [before], is a format character that no backslash stands in front
    of, and [_formats] has no entry for it. *)
Definition unsupported_after (re_formatchars : ascii → bool) (before : string)
    (c : ascii) : Prop :=
  re_formatchars c = true
  ∧ ends_with_backslash before = false
  ∧ _formats !! String c "" = None.

(** The first character without an entry in [_formats]. *)
Fixpoint first_unknown (cs : list ascii) : option ascii :=
  match cs with
  | [] => None
  | c :: rest =>
      match _formats !! String c "" with
      | Some _ => first_unknown rest
      | None => Some c
      end
  end.

Definition no_attribute (c : ascii) : string :=
  "'ExcelDateFormatter' object has no attribute '" +:+ String c "'".

(** The text of the last piece of a split. *)
Fixpoint last_text (text : string) (pieces : list (ascii * string)) : string :=
  match pieces with
  | [] => text
  | (_, text') :: rest => last_text text' rest
  end.

(** Two splits put end to end: the last text of the first runs into
    the first text of the second. *)
Fixpoint glue_pieces (p1 : list (ascii * string)) (t2 : string)
    (p2 : list (ascii * string)) : list (ascii * string) :=
  match p1 with
  | [] => p2
  | [(c, t)] => (c, t +:+ t2) :: p2
  | x :: rest => x :: glue_pieces rest t2 p2
  end.

Definition glue (x y : string * list (ascii * string))
    : string * list (ascii * string) :=
  match x.2 with
  | [] => (x.1 +:+ y.1, y.2)
  | _ => (x.1, glue_pieces x.2 y.1 y.2)
  end.

Definition render (x : string * list (ascii * string)) : lookup_result string :=
  tail ← format_pieces x.2; Attr (unescape x.1 +:+ tail).

(** The character class of [re_formatchars] in Django 2 and 3. *)
Definition django_formatchars (c : ascii) : bool :=
  contains c "aAbBcdDeEfFgGhHiIjlLmMnNoOPrsStTUuwWyYzZ".

Lemma string_pair_ind (P : string → Prop) :
  P "" → (∀ c, P (String c "")) →
  (∀ c d r, P r → P (String d r) → P (String c (String d r))) →
  ∀ s, P s.
Proof.
  intros Hnil Hone Hstep s.
  enough (P s ∧ ∀ c, P (String c s)) as [Hs _] by exact Hs.
  induction s as [|a s [IHs IHcons]]; split; auto.
Qed.

Lemma string_app_assoc (a b c : string) : (a +:+ b) +:+ c = a +:+ (b +:+ c).
Proof.
  induction a as [|x a IH]; [done|].
  change (String x ((a +:+ b) +:+ c) = String x (a +:+ (b +:+ c))). by f_equal.
Qed.

Lemma string_app_nil_r (a : string) : a +:+ "" = a.
Proof.
  induction a as [|x a IH]; [done|].
  change (String x (a +:+ "") = String x a). by f_equal.
Qed.

Lemma ends_with_backslash_tail (c : ascii) (r : string) :
  ends_with_backslash (String c r) = false → ends_with_backslash r = false.
Proof. destruct r; [done|]. simpl. done. Qed.

Lemma unescape_plain (c : ascii) (r : string) :
  c ≠ backslash → unescape (String c r) = String c (unescape r).
Proof. intros Hc. cbn [unescape]. by rewrite decide_False. Qed.

Lemma unescape_escaped (d : ascii) (r : string) :
  d ≠ newline → unescape (String backslash (String d r)) = String d (unescape r).
Proof.
  intros Hd. cbn [unescape]. rewrite decide_True by done. by rewrite decide_False.
Qed.

Lemma unescape_newline (r : string) :
  unescape (String backslash (String newline r))
  = String backslash (unescape (String newline r)).
Proof.
  change (unescape (String backslash (String newline r)))
    with (if decide (backslash = backslash)
          then if decide (newline = newline)
               then String backslash (unescape (String newline r))
               else String newline (unescape r)
          else String backslash (unescape (String newline r))).
  rewrite decide_True by done. by rewrite decide_True.
Qed.

Lemma unescape_app (s1 s2 : string) :
  ends_with_backslash s1 = false →
  unescape (s1 +:+ s2) = unescape s1 +:+ unescape s2.
Proof.
  revert s1. apply (string_pair_ind
    (λ s1, ends_with_backslash s1 = false →
           unescape (s1 +:+ s2) = unescape s1 +:+ unescape s2)).
  - done.
  - intros c Hc. simpl in Hc. apply bool_decide_eq_false in Hc.
    change (String c "" +:+ s2) with (String c s2).
    by rewrite !unescape_plain.
  - intros c d r IHr IHdr Hends.
    assert (ends_with_backslash (String d r) = false) as Hdr by exact Hends.
    assert (ends_with_backslash r = false) as Hr
      by (by apply ends_with_backslash_tail in Hdr).
    change (String c (String d r) +:+ s2) with (String c (String d r +:+ s2)).
    destruct (decide (c = backslash)) as [->|Hc].
    + change (String d r +:+ s2) with (String d (r +:+ s2)).
      destruct (decide (d = newline)) as [->|Hd].
      * rewrite !unescape_newline.
        change (String newline (r +:+ s2)) with (String newline r +:+ s2).
        by rewrite (IHdr Hdr).
      * rewrite !unescape_escaped by done. by rewrite (IHr Hr).
    + rewrite !unescape_plain by done. by rewrite (IHdr Hdr).
Qed.

Lemma split_nil (re_formatchars : ascii → bool) (prev : bool) (s : string) :
  split re_formatchars prev s = ("", []) → s = "".
Proof.
  destruct s as [|c r]; [done|]. cbn [split].
  destruct (split re_formatchars (bool_decide (c = backslash)) r) as [t p].
  by destruct (re_formatchars c && negb prev).
Qed.

Lemma format_render (re_formatchars : ascii → bool) (s : string) :
  format re_formatchars s = render (split re_formatchars false s).
Proof. unfold format, render. by destruct (split re_formatchars false s). Qed.

Lemma split_app (re_formatchars : ascii → bool) (s1 s2 : string) (prev : bool) :
  (s1 = "" → prev = false) →
  ends_with_backslash s1 = false →
  split re_formatchars prev (s1 +:+ s2)
  = glue (split re_formatchars prev s1) (split re_formatchars false s2).
Proof.
  revert prev. induction s1 as [|c r IH]; intros prev Hprev Hends.
  - rewrite Hprev by done. change ("" +:+ s2) with s2.
    by destruct (split re_formatchars false s2).
  - change (String c r +:+ s2) with (String c (r +:+ s2)). cbn [split].
    rewrite IH.
    + destruct (split re_formatchars (bool_decide (c = backslash)) r) as [t p].
      destruct (split re_formatchars false s2) as [t2 p2].
      unfold glue. cbn [fst snd].
      destruct p as [|[c' t'] p']; by destruct (re_formatchars c && negb prev).
    + intros ->. exact Hends.
    + by apply ends_with_backslash_tail in Hends.
Qed.

Lemma last_text_cons (c : ascii) (t : string) (p : list (ascii * string)) :
  p ≠ [] → last_text (String c t) p = last_text t p.
Proof. by destruct p as [|[? ?] ?]. Qed.

Lemma split_last_text (re_formatchars : ascii → bool) (s : string) (prev : bool) :
  ends_with_backslash s = false →
  ends_with_backslash
    (last_text (split re_formatchars prev s).1 (split re_formatchars prev s).2)
  = false.
Proof.
  revert prev. induction s as [|c r IH]; intros prev Hends; [done|].
  cbn [split].
  pose proof (IH (bool_decide (c = backslash))
                (ends_with_backslash_tail _ _ Hends)) as IHr.
  pose proof (split_nil re_formatchars (bool_decide (c = backslash)) r) as Hnil.
  destruct (split re_formatchars (bool_decide (c = backslash)) r) as [t p].
  cbn [fst snd] in IHr.
  destruct (re_formatchars c && negb prev); cbn [fst snd last_text]; [done|].
  destruct p as [|[c' t'] p']; [|done].
  cbn [last_text] in *. destruct t as [|d t]; [|exact IHr].
  by rewrite (Hnil eq_refl) in Hends.
Qed.

Lemma format_pieces_cons (c : ascii) (t : string) (rest : list (ascii * string)) :
  format_pieces ((c, t) :: rest)
  = (method ← __getattr__ (String c "");
     tail ← format_pieces rest;
     Attr (method tt +:+ unescape t +:+ tail)).
Proof. reflexivity. Qed.

Lemma format_pieces_glue (t2 : string) (p2 rest : list (ascii * string))
    (c : ascii) (t : string) :
  ends_with_backslash (last_text t rest) = false →
  format_pieces (glue_pieces ((c, t) :: rest) t2 p2)
  = (a ← format_pieces ((c, t) :: rest); b ← render (t2, p2); Attr (a +:+ b)).
Proof.
  revert c t. induction rest as [|[c' t'] rest IH]; intros c t Hends.
  - cbn [glue_pieces last_text] in *. unfold render. cbn [fst snd].
    rewrite !format_pieces_cons. cbn [format_pieces].
    destruct (__getattr__ (String c "")) as [method|msg]; [|reflexivity].
    cbn [mbind lookup_result_bind].
    rewrite (unescape_app _ _ Hends).
    destruct (format_pieces p2) as [tail|msg]; [|reflexivity].
    cbn [mbind lookup_result_bind]. f_equal.
    by rewrite string_app_nil_r, !string_app_assoc.
  - change (glue_pieces ((c, t) :: (c', t') :: rest) t2 p2)
      with ((c, t) :: glue_pieces ((c', t') :: rest) t2 p2).
    rewrite (format_pieces_cons c t (glue_pieces _ _ _)).
    rewrite (format_pieces_cons c t ((c', t') :: rest)).
    rewrite (IH c' t' Hends).
    destruct (__getattr__ (String c "")) as [method|msg]; [|reflexivity].
    cbn [mbind lookup_result_bind].
    destruct (format_pieces ((c', t') :: rest)) as [a|msg]; [|reflexivity].
    cbn [mbind lookup_result_bind].
    destruct (render (t2, p2)) as [b|msg]; [|reflexivity].
    cbn [mbind lookup_result_bind]. f_equal.
    by rewrite !string_app_assoc.
Qed.

Lemma render_pair (t : string) (p : list (ascii * string)) :
  render (t, p) = (tail ← format_pieces p; Attr (unescape t +:+ tail)).
Proof. reflexivity. Qed.

Lemma render_glue (x y : string * list (ascii * string)) :
  ends_with_backslash (last_text x.1 x.2) = false →
  render (glue x y) = (a ← render x; b ← render y; Attr (a +:+ b)).
Proof.
  destruct x as [t1 p1], y as [t2 p2]. cbn [fst snd]. intros Hends.
  destruct p1 as [|[c t] rest].
  - unfold glue, render. cbn [fst snd format_pieces last_text] in *.
    cbn [mbind lookup_result_bind].
    rewrite (unescape_app _ _ Hends).
    destruct (format_pieces p2) as [tail|msg]; [|reflexivity].
    cbn [mbind lookup_result_bind]. f_equal.
    by rewrite string_app_nil_r, string_app_assoc.
  - change (glue (t1, (c, t) :: rest) (t2, p2))
      with (t1, glue_pieces ((c, t) :: rest) t2 p2).
    rewrite (render_pair t1 (glue_pieces _ _ _)), (render_pair t1 ((c, t) :: rest)).
    rewrite (format_pieces_glue t2 p2 rest c t Hends).
    destruct (format_pieces ((c, t) :: rest)) as [a|msg]; [|reflexivity].
    cbn [mbind lookup_result_bind].
    destruct (render (t2, p2)) as [b|msg]; [|reflexivity].
    cbn [mbind lookup_result_bind]. f_equal.
    by rewrite string_app_assoc.
Qed.

Lemma format_pieces_outcome (pieces : list (ascii * string)) :
  match first_unknown (map fst pieces) with
  | Some c => format_pieces pieces = AttributeError (no_attribute c)
  | None => ∃ excel, format_pieces pieces = Attr excel
  end.
Proof.
  induction pieces as [|[c t] rest IH]; [by eexists|].
  rewrite format_pieces_cons. cbn [map fst first_unknown]. unfold __getattr__.
  destruct (_formats !! String c "") as [excel|]; [|reflexivity].
  cbn [mbind lookup_result_bind].
  destruct (first_unknown (map fst rest)) as [c'|].
  - by rewrite IH.
  - destruct IH as [tail ->]. by eexists.
Qed.

Lemma format_concat (re_formatchars : ascii → bool) (s1 s2 : string) :
  ends_with_backslash s1 = false →
  format re_formatchars (s1 +:+ s2)
  = (a ← format re_formatchars s1; b ← format re_formatchars s2; Attr (a +:+ b)).
Proof.
  intros Hends. rewrite !format_render.
  rewrite split_app by done.
  apply render_glue. by apply split_last_text.
Qed.

Lemma first_unknown_piece (pieces : list (ascii * string)) (c : ascii) :
  first_unknown (map fst pieces) = Some c →
  ∃ pb t pa,
    pieces = (pb ++ (c, t) :: pa)%list
    ∧ first_unknown (map fst pb) = None
    ∧ _formats !! String c "" = None.
Proof.
  induction pieces as [|[a t] rest IH]; [done|]. cbn [map fst first_unknown].
  destruct (_formats !! String a "") as [excel|] eqn:Ha.
  - intros Hrest. destruct (IH Hrest) as (pb & t' & pa & -> & Hpb & Hc).
    exists ((a, t) :: pb), t', pa. split; [done|]. split; [|done].
    cbn [map fst first_unknown]. by rewrite Ha.
  - intros [= <-]. by exists [], t, rest.
Qed.

(** A piece of a split starts at a format character of the string that
    no backslash stands in front of, and the pieces before it are those
    of the text before it. *)
Lemma split_at_piece (re_formatchars : ascii → bool) (s : string) :
  ∀ (prev : bool) (pb : list (ascii * string)) (c : ascii) (t : string)
    (pa : list (ascii * string)),
    (split re_formatchars prev s).2 = (pb ++ (c, t) :: pa)%list →
    ∃ s1 s2,
      s = s1 +:+ String c s2
      ∧ re_formatchars c = true
      ∧ (s1 = "" → prev = false)
      ∧ ends_with_backslash s1 = false
      ∧ map fst (split re_formatchars prev s1).2 = map fst pb.
Proof.
  induction s as [|a r IH]; intros prev pb c t pa Hp.
  - cbn in Hp. by destruct pb.
  - cbn [split] in Hp.
    destruct (split re_formatchars (bool_decide (a = backslash)) r) as [tr pr] eqn:Hr.
    assert (∀ pb', pr = (pb' ++ (c, t) :: pa)%list →
              ∃ s1 s2,
                String a r = String a s1 +:+ String c s2
                ∧ re_formatchars c = true
                ∧ ends_with_backslash (String a s1) = false
                ∧ map fst (split re_formatchars (bool_decide (a = backslash)) s1).2
                  = map fst pb') as Hrest.
    { intros pb' Hpr.
      destruct (IH (bool_decide (a = backslash)) pb' c t pa) as
        (s1 & s2 & -> & Hc & Hprev & Hends & Hfst).
      { by rewrite Hr. }
      exists s1, s2. split; [done|]. split; [done|]. split; [|done].
      destruct s1 as [|d s1]; [|exact Hends]. apply Hprev. done. }
    destruct (re_formatchars a && negb prev) eqn:Hm; cbn [snd] in Hp.
    + destruct pb as [|[a' t'] pb'].
      * injection Hp as -> _ _.
        apply andb_true_iff in Hm as [Hre Hprev]. apply negb_true_iff in Hprev.
        by exists "", r.
      * injection Hp as -> _ Hpr.
        destruct (Hrest pb' Hpr) as (s1 & s2 & Hs & Hc & Hends & Hfst).
        exists (String a' s1), s2. split; [done|]. split; [done|].
        split; [done|]. split; [done|].
        cbn [split].
        destruct (split re_formatchars (bool_decide (a' = backslash)) s1) as [t1 p1].
        rewrite Hm. cbn [snd map fst] in *. by rewrite Hfst.
    + destruct (Hrest pb Hp) as (s1 & s2 & Hs & Hc & Hends & Hfst).
      exists (String a s1), s2. split; [done|]. split; [done|].
      split; [done|]. split; [done|].
      cbn [split].
      destruct (split re_formatchars (bool_decide (a = backslash)) s1) as [t1 p1].
      rewrite Hm. exact Hfst.
Qed.

Lemma format_known (re_formatchars : ascii → bool) (s : string) :
  first_unknown (map fst (split re_formatchars false s).2) = None →
  ∃ excel, format re_formatchars s = Attr excel.
Proof.
  intros Hnone. rewrite format_render. unfold render.
  pose proof (format_pieces_outcome (split re_formatchars false s).2) as Hp.
  rewrite Hnone in Hp. destruct Hp as [tail ->]. by eexists.
Qed.

Lemma format_unsupported_first (re_formatchars : ascii → bool) (c : ascii)
    (after : string) :
  re_formatchars c = true → _formats !! String c "" = None →
  format re_formatchars (String c after) = AttributeError (no_attribute c).
Proof.
  intros Hre Hnone. unfold format. cbn [split].
  destruct (split re_formatchars (bool_decide (c = backslash)) after) as [t p].
  rewrite Hre. cbn [andb negb]. rewrite format_pieces_cons.
  unfold __getattr__. by rewrite Hnone.
Qed.

Lemma format_raises (re_formatchars : ascii → bool) (formatstr msg : string) :
  format re_formatchars formatstr = AttributeError msg ↔
  ∃ before c after,
    formatstr = before +:+ String c after
    ∧ unsupported_after re_formatchars before c
    ∧ (∃ excel, format re_formatchars before = Attr excel)
    ∧ msg = no_attribute c.
Proof.
  split.
  - intros Hraise. rewrite format_render in Hraise. unfold render in Hraise.
    pose proof (format_pieces_outcome (split re_formatchars false formatstr).2) as Hp.
    destruct (first_unknown (map fst (split re_formatchars false formatstr).2))
      as [c|] eqn:Hfirst.
    + rewrite Hp in Hraise. injection Hraise as <-.
      destruct (first_unknown_piece _ c Hfirst) as (pb & t & pa & Hpieces & Hpb & Hc).
      destruct (split_at_piece re_formatchars formatstr false pb c t pa Hpieces)
        as (s1 & s2 & Hs & Hre & _ & Hends & Hfst).
      exists s1, c, s2. split; [done|]. split; [done|]. split; [|done].
      apply format_known. by rewrite Hfst.
    + destruct Hp as [tail Hp]. by rewrite Hp in Hraise.
  - intros (before & c & after & -> & (Hre & Hends & Hnone) & [excel Hbefore] & ->).
    rewrite format_concat by done. rewrite Hbefore.
    by rewrite (format_unsupported_first re_formatchars c after Hre Hnone).
Qed.

(** X1. [get] raises [AttributeError] exactly when the
    [SHORT_DATETIME_FORMAT] of the locale holds a format character that
    has no backslash right before it and no entry in [_formats]; the
    error names the first such character, the one before which the
    format string can be formatted. Otherwise [get] returns a text. *)
Theorem get_raises (re_formatchars : ascii → bool) (get_format : string → string) :
  let formatstr := get_format "SHORT_DATETIME_FORMAT" in
  ((∃ msg, get re_formatchars get_format = AttributeError msg) ↔
   ∃ before c after,
     formatstr = before +:+ String c after
     ∧ unsupported_after re_formatchars before c)
  ∧ (∀ msg,
       get re_formatchars get_format = AttributeError msg ↔
       ∃ before c after,
         formatstr = before +:+ String c after
         ∧ unsupported_after re_formatchars before c
         ∧ (∃ excel, format re_formatchars before = Attr excel)
         ∧ msg = no_attribute c)
  ∧ ((∀ msg, get re_formatchars get_format ≠ AttributeError msg) →
     ∃ excel, get re_formatchars get_format = Attr excel).
Proof.
  intros formatstr. unfold get. fold formatstr. split; [|split].
  - split.
    + intros [msg Hraise]. apply format_raises in Hraise
        as (before & c & after & Hs & Hc & _ & _).
      by exists before, c, after.
    + intros (before & c & after & -> & Hre & Hends & Hnone).
      rewrite format_concat by done.
      rewrite (format_unsupported_first re_formatchars c after Hre Hnone).
      destruct (format re_formatchars before); by eexists.
  - intros msg. apply format_raises.
  - intros Hno. destruct (format re_formatchars formatstr) as [excel|msg];
      [by eexists|]. by destruct (Hno msg).
Qed.

Lemma split_literal (re_formatchars : ascii → bool) (s : string) (prev : bool) :
  Forall (λ c, re_formatchars c = false) (String.list_ascii_of_string s) →
  split re_formatchars prev s = (s, []).
Proof.
  revert prev. induction s as [|c r IH]; intros prev Hall; [done|].
  cbn [String.list_ascii_of_string] in Hall. apply Forall_cons in Hall as [Hc Hr].
  cbn [split]. by rewrite (IH _ Hr), Hc.
Qed.

Lemma unescape_literal (s : string) :
  Forall (λ c, c ≠ backslash) (String.list_ascii_of_string s) → unescape s = s.
Proof.
  induction s as [|c r IH]; intros Hall; [done|].
  cbn [String.list_ascii_of_string] in Hall. apply Forall_cons in Hall as [Hc Hr].
  rewrite unescape_plain by done. by rewrite IH.
Qed.

(** X2. A format string without format characters and without
    backslashes, such as the separators of a date, is its own Excel
    format. *)
Theorem format_literal_text (re_formatchars : ascii → bool) (formatstr : string) :
  Forall (λ c, re_formatchars c = false ∧ c ≠ backslash)
    (String.list_ascii_of_string formatstr) →
  format re_formatchars formatstr = Attr formatstr.
Proof.
  intros Hall. unfold format.
  rewrite split_literal by (eapply Forall_impl; [exact Hall|]; by intros c [? ?]).
  cbn [format_pieces mbind lookup_result_bind].
  rewrite unescape_literal by (eapply Forall_impl; [exact Hall|]; by intros c [? ?]).
  by rewrite string_app_nil_r.
Qed.

Lemma format_literal_text_witness :
  format django_formatchars "-/: ., " = Attr "-/: ., ".
Proof.
  apply (format_literal_text django_formatchars "-/: ., ").
  repeat constructor; discriminate.
Defined.

(** X3. The format of two format strings put end to end is the two
    formats put end to end, and raises what the first of them raises,
    as long as the first string does not end with a backslash. *)
Theorem format_app (re_formatchars : ascii → bool) (s1 s2 : string) :
  ends_with_backslash s1 = false →
  format re_formatchars (s1 +:+ s2)
  = (a ← format re_formatchars s1; b ← format re_formatchars s2; Attr (a +:+ b)).
Proof. apply format_concat. Qed.

Lemma format_app_witness :
  format django_formatchars ("m/d/Y" +:+ " P")
  = (a ← format django_formatchars "m/d/Y";
     b ← format django_formatchars " P";
     Attr (a +:+ b)).
Proof. apply (format_app django_formatchars "m/d/Y" " P"). reflexivity. Defined.

(** X4. Where the backslash is no format character, a backslash before
    a character that is neither a backslash nor a newline makes that
    character literal: the backslash is dropped and the character is
    copied, whether or not it is a format character, and the rest of the
    string is formatted as it would be alone. *)
Theorem format_escaped_char (re_formatchars : ascii → bool) (c : ascii)
    (rest : string) :
  re_formatchars backslash = false →
  c ≠ backslash → c ≠ newline →
  format re_formatchars (String backslash (String c rest))
  = (excel ← format re_formatchars rest; Attr (String c excel)).
Proof.
  intros Hre Hc Hnl.
  change (String backslash (String c rest))
    with (String backslash (String c "") +:+ rest).
  rewrite format_concat by (by apply bool_decide_eq_false).
  assert (format re_formatchars (String backslash (String c "")) = Attr (String c ""))
    as ->.
  { unfold format. cbn [split]. rewrite Hre.
    rewrite bool_decide_eq_true_2 by done.
    rewrite andb_false_r. cbn [andb format_pieces mbind lookup_result_bind].
    by rewrite unescape_escaped. }
  cbn [mbind lookup_result_bind].
  by destruct (format re_formatchars rest).
Qed.

Lemma format_escaped_char_witness :
  format django_formatchars (String backslash "d\e F")
  = (excel ← format django_formatchars "\e F"; Attr (String "d" excel)).
Proof.
  apply (format_escaped_char django_formatchars "d" "\e F");
    [reflexivity | discriminate | discriminate].
Defined.

End ExcelDateFormatterProperties.

(** ** The preprocessing tables of a subclass *)

(** An entry of [custom_value_preprocess] that the loop of
    [get_preprocess_function] passes over for [v] and [export_format]. *)
Definition passed_over (v : value) (export_format : string)
    (entry : list pyclass * format_dict) : Prop :=
  isinstance v entry.1 = false ∨ entry.2 !! export_format = None.

(** What [write_xlsx_row] leaves in a cell of the row it writes. *)
Definition row_cell (self : view_class) (row_dict : list (string * value))
    (c : nat) : option value :=
  match row_dict !! c with
  | Some kv => match processed self kv with Ok v => Some v | Raise _ => None end
  | None => None
  end.

Lemma value_class_function_skip (pre rest : list (list pyclass * format_dict))
    (v : value) (export_format : string) :
  Forall (passed_over v export_format) pre →
  value_class_function (pre ++ rest) v export_format
  = value_class_function rest v export_format.
Proof.
  induction 1 as [|[classes fd] pre [Hinst|Hfmt] Hpre IH]; [done| |];
    cbn [app value_class_function]; cbn [fst snd] in *.
  - by rewrite Hinst.
  - rewrite Hfmt. by destruct (isinstance v classes).
Qed.

(** X5. Whatever table a subclass gives for [custom_value_preprocess],
    the first entry, in the order of the dictionary, whose classes the
    value is an instance of and which holds the export format decides;
    an entry that fails either test is passed over, and when every
    entry is, the function is [force_str]. A field with no override of
    its own for the format gets this function. *)
Theorem value_class_first_match (self : view_class)
    (pre post : list (list pyclass * format_dict)) (classes : list pyclass)
    (fd : format_dict) (f : option pyfun) (field : string) (v : value)
    (export_format : string) :
  Forall (passed_over v export_format) pre →
  isinstance v classes = true →
  fd !! export_format = Some f →
  value_class_function (pre ++ (classes, fd) :: post) v export_format = f
  ∧ value_class_function pre v export_format = Some force_str_fn
  ∧ (custom_field_preprocess self !! field = None →
     custom_value_preprocess self = (pre ++ (classes, fd) :: post)%list →
     get_preprocess_function self field v export_format = f).
Proof.
  intros Hpre Hinst Hfmt.
  assert (value_class_function (pre ++ (classes, fd) :: post) v export_format = f)
    as Hfirst.
  { rewrite value_class_function_skip by done.
    cbn [value_class_function]. by rewrite Hinst, Hfmt. }
  split; [done|]. split.
  - rewrite <- (app_nil_r pre). by rewrite value_class_function_skip.
  - intros Hfield Htable. unfold get_preprocess_function.
    rewrite Hfield, Htable. cbn [default]. by rewrite lookup_empty.
Qed.

Lemma value_class_first_match_witness :
  let dates := ([date_class; time_class], ({[ FORMAT_XLSX := None ]} : format_dict)) in
  let lists :=
    ([list_class],
     (<[ FORMAT_CSV := Some list_to_str ]> {[ FORMAT_XLSX := Some list_to_str ]}
        : format_dict)) in
  let v := VList ["red"; "green"] in
  value_class_function ([dates] ++ [lists]) v FORMAT_CSV = Some list_to_str
  ∧ value_class_function [dates] v FORMAT_CSV = Some force_str_fn
  ∧ (custom_field_preprocess SubmissionListView !! "colours" = None →
     custom_value_preprocess SubmissionListView = ([dates] ++ [lists])%list →
     get_preprocess_function SubmissionListView "colours" v FORMAT_CSV
     = Some list_to_str).
Proof.
  intros dates lists v.
  apply (value_class_first_match SubmissionListView [dates] [] [list_class]
           lists.2 (Some list_to_str) "colours" v FORMAT_CSV).
  - repeat constructor.
  - reflexivity.
  - reflexivity.
Defined.

(** ** Writing a row of the worksheet *)

Section MapM.
Context {A B : Type} (f : A → result B).

Lemma mapM_cons (x : A) (l : list A) :
  mapM f (x :: l) = (y ← f x; k ← mapM f l; mret (y :: k)).
Proof. reflexivity. Qed.

Lemma mapM_Ok (l : list A) (vals : list B) :
  mapM f l = Ok vals ↔ Forall2 (λ x y, f x = Ok y) l vals.
Proof.
  revert vals. induction l as [|x l IH]; intros vals.
  - split; [intros [= <-]; constructor|]. by inversion 1.
  - rewrite mapM_cons. split.
    + destruct (f x) as [y|e] eqn:Hx; [|done]. cbn [mbind result_bind].
      destruct (mapM f l) as [k|e] eqn:Hl; [|done]. intros [= <-].
      constructor; [done|]. by apply IH.
    + inversion 1 as [|? y ? k Hx Hl]; subst. rewrite Hx.
      cbn [mbind result_bind]. apply IH in Hl. by rewrite Hl.
Qed.

Lemma mapM_Raise (l : list A) (e : exn) :
  mapM f l = Raise e ↔
    ∃ i x, l !! i = Some x ∧ f x = Raise e
           ∧ ∀ j y, (j < i)%nat → l !! j = Some y → ∃ v, f y = Ok v.
Proof.
  induction l as [|x l IH].
  - split; [done|]. by intros (i & y & Hy & _).
  - rewrite mapM_cons. destruct (f x) as [v|e'] eqn:Hx; cbn [mbind result_bind].
    + destruct (mapM f l) as [k|e'] eqn:Hl; cbn [mbind result_bind].
      * split; [done|]. intros (i & y & Hy & Hraise & Hbefore).
        destruct i as [|i]; [simpl in Hy; congruence|].
        assert (Ok k = Raise e) as Habs; [|done].
        apply IH. exists i, y. repeat split; [done..|].
        intros j z Hj Hz. apply (Hbefore (S j) z); [lia|done].
      * split.
        -- intros [= ->]. destruct (proj1 IH eq_refl) as (i & y & Hy & Hraise & Hbefore).
           exists (S i), y. repeat split; [done..|].
           intros [|j] z Hj Hz; [simpl in Hz; simplify_eq; by eexists|].
           apply (Hbefore j z); [lia|done].
        -- intros (i & y & Hy & Hraise & Hbefore).
           destruct i as [|i]; [simpl in Hy; congruence|].
           f_equal. assert (Raise e' = Raise (A := list B) e) as [= ->]; [|done].
           apply IH. exists i, y. repeat split; [done..|].
           intros j z Hj Hz. apply (Hbefore (S j) z); [lia|done].
    + split.
      * intros [= ->]. exists 0%nat, x. repeat split; [done..|]. intros; lia.
      * intros (i & y & Hy & Hraise & Hbefore). destruct i as [|i].
        -- simpl in Hy. simplify_eq. congruence.
        -- destruct (Hbefore 0%nat x) as [v Hv]; [lia|done|]. congruence.
Qed.
End MapM.

Lemma stored_Ok (self : view_class) (kv : string * value) (v : value) :
  stored self kv = Ok v ↔ processed self kv = Ok v ∧ ∀ l, v ≠ VList l.
Proof.
  unfold stored. destruct (processed self kv) as [token|e]; cbn [mbind result_bind].
  - destruct token; split;
      solve [ intros [= <-]; by split
            | intros [[= <-] Hlist]; done
            | intros [[= <-] Hlist]; by destruct (Hlist l)
            | done ].
  - split; [done|]. by intros [? _].
Qed.

Lemma stored_Raise (self : view_class) (kv : string * value) (e : exn) :
  stored self kv = Raise e ↔
    processed self kv = Raise e
    ∨ (∃ l, processed self kv = Ok (VList l)) ∧ e = TypeError.
Proof.
  unfold stored. destruct (processed self kv) as [token|e']; cbn [mbind result_bind].
  - destruct token; split;
      solve [ done
            | intros [?|[[l' ?] _]]; done
            | intros [= <-]; right; split; [by eexists|done]
            | intros [?|[_ ->]]; done ].
  - split; [intros [= ->]; by left|]. by intros [[= ->]|[[l ?] _]].
Qed.

(** X6. When [write_xlsx_row] returns, the row it was given holds, in
    the columns of the row dictionary and in its order, the processed
    values, whatever was there before; every other cell of the worksheet
    is as it was. *)
Theorem write_xlsx_row_footprint (self : view_class) (ws ws' : worksheet)
    (row_dict : list (string * value)) (row_number : nat) :
  write_xlsx_row self ws row_dict row_number = Ok ws' →
  ∀ r c,
    ws' !! (r, c)
    = if decide (r = row_number ∧ (c < length row_dict)%nat)
      then row_cell self row_dict c
      else ws !! (r, c).
Proof.
  unfold write_xlsx_row. rewrite write_xlsx_cells_mapM.
  destruct (mapM (stored self) row_dict) as [vals|e] eqn:Hvals; [|done].
  cbn [mbind result_bind]. intros [= <-] r c.
  apply mapM_Ok in Hvals. rewrite write_row_lookup.
  rewrite <- (Forall2_length _ _ _ Hvals), Nat.sub_0_r.
  destruct (decide (r = row_number ∧ (c < length row_dict)%nat)) as [[-> Hc]|Hout].
  - rewrite decide_True by lia. unfold row_cell.
    destruct (lookup_lt_is_Some_2 row_dict c Hc) as [kv Hkv]. rewrite Hkv.
    destruct (Forall2_lookup_l _ _ _ _ _ Hvals Hkv) as (v & Hv & Hok).
    apply stored_Ok in Hok as [Hok _]. by rewrite Hv, Hok.
  - rewrite decide_False; [done|]. lia.
Qed.

Lemma write_xlsx_row_footprint_witness :
  let before : worksheet := <[(1, 0) := VStr "old"]> {[ (0, 0) := VStr "Name" ]} in
  let after := write_row before 1 0 [VStr "Ann"; VStr "x"] in
  after !! (1, 0) = Some (VStr "Ann")
  ∧ after !! (1, 1) = Some (VStr "x")
  ∧ after !! (0, 0) = Some (VStr "Name")
  ∧ after !! (1, 2) = None.
Proof.
  intros before after.
  pose proof (write_xlsx_row_footprint SubmissionListView before after
                [("Name", VStr "Ann"); ("Colours", VStr "x")] 1%nat eq_refl)
    as Hcells.
  repeat split; rewrite Hcells; reflexivity.
Defined.

(** X7. [write_xlsx_row] raises exactly when some item of the row
    cannot be written: its preprocessing function raises, or the token
    it gives is a list, for which [worksheet.write] raises [TypeError].
    It raises what the first such item raises; the items before it were
    processed to tokens that are no lists, and written. With the tables
    of the class as it ships, a row of texts never raises. *)
Theorem write_xlsx_row_raises (self : view_class) (ws : worksheet)
    (row_dict : list (string * value)) (row_number : nat) (e : exn) :
  (write_xlsx_row self ws row_dict row_number = Raise e ↔
     ∃ i kv, row_dict !! i = Some kv
             ∧ (processed self kv = Raise e
                ∨ (∃ l, processed self kv = Ok (VList l)) ∧ e = TypeError)
             ∧ ∀ j kv', (j < i)%nat → row_dict !! j = Some kv' →
                        ∃ v, processed self kv' = Ok v ∧ ∀ l, v ≠ VList l)
  ∧ (Forall is_text row_dict →
     write_xlsx_row SubmissionListView ws row_dict row_number ≠ Raise e).
Proof.
  split.
  - unfold write_xlsx_row. rewrite write_xlsx_cells_mapM.
    transitivity (mapM (stored self) row_dict = Raise e).
    { destruct (mapM (stored self) row_dict) as [vals|e']; cbn [mbind result_bind];
        [split; discriminate | split; intros [= ->]; reflexivity]. }
    rewrite mapM_Raise. split.
    + intros (i & kv & Hkv & Hraise & Hbefore). exists i, kv.
      split; [done|]. split; [by apply stored_Raise|].
      intros j kv' Hj Hkv'. destruct (Hbefore j kv' Hj Hkv') as [v Hv].
      exists v. by apply stored_Ok.
    + intros (i & kv & Hkv & Hraise & Hbefore). exists i, kv.
      split; [done|]. split; [by apply stored_Raise|].
      intros j kv' Hj Hkv'. destruct (Hbefore j kv' Hj Hkv') as [v Hv].
      exists v. by apply stored_Ok.
  - intros Htext. unfold write_xlsx_row. by rewrite write_xlsx_cells_text.
Qed.

(** ** More on the submission query *)

Lemma get_queryset_sublist_form (db : Database) (object : Form) (ff : BoundForm)
    (queryset : list Submission) :
  get_queryset db object ff = Ok queryset →
  queryset `sublist_of` form_submissions db object.
Proof.
  unfold get_queryset. fold (form_submissions db object).
  destruct ff as [valid from to]; cbn [is_valid date_from date_to].
  destruct valid; [|by intros [= <-]].
  destruct to as [t|]; cbn [mbind result_bind].
  - unfold add_one_day. destruct (decide (t + one_day ≤ max_time)%Z); [|done].
    cbn [mbind result_bind]. intros [= <-].
    etrans; [apply sublist_filter|].
    destruct from as [f|]; [apply sublist_filter|done].
  - intros [= <-]. destruct from as [f|]; [apply sublist_filter|done].
Qed.

(** X8. Whatever the filter, the query returns rows of the form's own
    submission class, in the order of its manager and without
    repeating any, and every one of them belongs to the form. *)
Theorem get_queryset_own_rows (db : Database) (object : Form) (ff : BoundForm)
    (queryset : list Submission) :
  get_queryset db object ff = Ok queryset →
  queryset `sublist_of` default_manager db (get_submission_class object)
  ∧ Forall (λ s, form s = pk object) queryset.
Proof.
  intros Hqs. pose proof (get_queryset_sublist_form _ _ _ _ Hqs) as Hsub. split.
  - etrans; [exact Hsub|]. apply sublist_filter.
  - apply Forall_forall. intros s Hs.
    assert (s ∈ form_submissions db object) as Hin
      by (eapply elem_of_sublist; eauto).
    by apply list_elem_of_filter in Hin as [? _].
Qed.

Lemma get_queryset_own_rows_witness :
  [Sample.s1; Sample.s2] `sublist_of` default_manager Sample.db
                                       (get_submission_class Sample.contact)
  ∧ Forall (λ s, form s = pk Sample.contact) [Sample.s1; Sample.s2].
Proof.
  apply (get_queryset_own_rows Sample.db Sample.contact Sample.no_filter).
  vm_compute. reflexivity.
Defined.

(** X9. The query raises in one case only: the form is valid and
    [date_to] is so late that adding a day leaves the range of dates;
    then it raises [OverflowError]. *)
Theorem get_queryset_raises (db : Database) (object : Form) (ff : BoundForm)
    (e : exn) :
  get_queryset db object ff = Raise e ↔
    is_valid ff = true
    ∧ (∃ t, date_to ff = Some t ∧ (max_time < t + one_day)%Z)
    ∧ e = OverflowError.
Proof.
  unfold get_queryset. fold (form_submissions db object).
  destruct ff as [valid from to]; cbn [is_valid date_from date_to].
  destruct valid; [|split; [done|by intros [? _]]].
  destruct to as [t|]; cbn [mbind result_bind].
  - unfold add_one_day.
    destruct (decide (t + one_day ≤ max_time)%Z) as [Hin|Hout];
      cbn [mbind result_bind].
    + split; [done|]. intros (_ & (t' & [= <-] & Hlate) & _). lia.
    + split.
      * intros [= <-]. split; [done|]. split; [|done]. exists t. split; [done|lia].
      * by intros (_ & _ & ->).
  - split; [done|]. by intros (_ & (t' & ? & _) & _).
Qed.

(** X10. The two bounds act independently: a submission passes both
    exactly when it passes each alone; and a wider range keeps all that
    a narrower one returns. *)
Theorem date_bounds_compose (db : Database) (object : Form) (f t : Z)
    (both lower upper : list Submission) :
  get_queryset db object {| is_valid := true; date_from := Some f; date_to := Some t |}
  = Ok both →
  get_queryset db object {| is_valid := true; date_from := Some f; date_to := None |}
  = Ok lower →
  get_queryset db object {| is_valid := true; date_from := None; date_to := Some t |}
  = Ok upper →
  (∀ s, s ∈ both ↔ s ∈ lower ∧ s ∈ upper)
  ∧ (∀ f' t' wider,
       (f' ≤ f)%Z → (t ≤ t')%Z →
       get_queryset db object
         {| is_valid := true; date_from := Some f'; date_to := Some t' |}
       = Ok wider →
       ∀ s, s ∈ both → s ∈ wider).
Proof.
  intros Hboth Hlower Hupper. split.
  - intros s.
    rewrite (get_queryset_elem _ _ _ _ s Hboth), (get_queryset_elem _ _ _ _ s Hlower),
      (get_queryset_elem _ _ _ _ s Hupper).
    cbn [is_valid date_from date_to]. split.
    + intros (Hs & Hin). destruct (Hin eq_refl) as [Hf Ht].
      split; (split; [done|]); intros _; split; done.
    + intros [(Hs & Hl) (_ & Hu)]. split; [done|]. intros _.
      split; [apply (Hl eq_refl)|apply (Hu eq_refl)].
  - intros f' t' wider Hf Ht Hwider s Hin.
    apply (get_queryset_elem _ _ _ _ s Hboth) in Hin as (Hs & Hin).
    apply (get_queryset_elem _ _ _ _ s Hwider).
    cbn [is_valid date_from date_to] in *.
    destruct (Hin eq_refl) as [Hfrom Hto].
    split; [done|]. intros _. split.
    + intros ? [= <-]. specialize (Hfrom f eq_refl). lia.
    + intros ? [= <-]. specialize (Hto t eq_refl). lia.
Qed.

Lemma date_bounds_compose_witness :
  (∀ s, s ∈ [Sample.s2] ↔ s ∈ [Sample.s2] ∧ s ∈ [Sample.s1; Sample.s2])
  ∧ (∀ f' t' wider,
       (f' ≤ midnight 738001)%Z → (midnight 738000 ≤ t')%Z →
       get_queryset Sample.db Sample.contact
         {| is_valid := true; date_from := Some f'; date_to := Some t' |}
       = Ok wider →
       ∀ s, s ∈ [Sample.s2] → s ∈ wider).
Proof.
  apply (date_bounds_compose Sample.db Sample.contact (midnight 738001)
           (midnight 738000) [Sample.s2] [Sample.s2] [Sample.s1; Sample.s2]);
    vm_compute; reflexivity.
Defined.

(** X11. A range that is empty, [date_from] later than a day after
    [date_to], is no error: the query returns no submission. *)
Theorem empty_date_range (db : Database) (object : Form) (f t : Z) :
  (t + one_day < f)%Z → (t + one_day ≤ max_time)%Z →
  get_queryset db object {| is_valid := true; date_from := Some f; date_to := Some t |}
  = Ok [].
Proof.
  intros Hempty Hmax.
  destruct (get_queryset db object
              {| is_valid := true; date_from := Some f; date_to := Some t |})
    as [queryset|e] eqn:Hqs.
  - f_equal. apply elem_of_nil_inv. intros s Hs.
    apply (get_queryset_elem _ _ _ _ s Hqs) in Hs as (_ & Hin).
    destruct (Hin eq_refl) as [Hfrom Hto]. cbn [date_from date_to] in *.
    specialize (Hfrom f eq_refl). specialize (Hto t eq_refl). lia.
  - apply get_queryset_raises in Hqs as (_ & (t' & [= <-] & Hlate) & _). lia.
Qed.

Lemma empty_date_range_witness :
  get_queryset Sample.db Sample.contact
    {| is_valid := true; date_from := Some (midnight 738005);
       date_to := Some (midnight 738000) |}
  = Ok [].
Proof.
  apply (empty_date_range Sample.db Sample.contact); vm_compute; congruence.
Defined.

(** X12. The CSV is rectangular: every row, the header and the row of
    each submission, has one cell for each field of the schema, also
    when labels repeat. *)
Theorem csv_rows_rectangular (strip_tags : string → string) (db : Database)
    (object : Form) (ff : BoundForm) (log log' : list db_query)
    (r : HttpResponse) (rows : list (list string)) :
  csv strip_tags db object ff log = (Ok r, log') →
  content r = CsvRows rows →
  Forall (λ row, length row = length (get_data_fields object)) rows.
Proof.
  rewrite csv_run. destruct (get_queryset db object ff) as [queryset|e]; [|done].
  intros [= <- _]. cbn [content]. intros [= <-].
  constructor; [apply length_map|].
  apply Forall_forall. intros row Hrow.
  apply list_elem_of_In, in_map_iff in Hrow as (s & <- & _).
  unfold csv_row. apply length_map.
Qed.

Lemma csv_rows_rectangular_witness :
  Forall (λ row, length row = length (get_data_fields Sample.survey))
    [["Name"; "Name"]; ["None"; "x"]].
Proof.
  apply (csv_rows_rectangular Sample.strip_tags Sample.db Sample.survey
           Sample.no_filter [] [SubmissionFetch]
           {| status_code := 200;
              content_type := "text/csv; charset=utf-8";
              content_disposition := Some "attachment;filename=export.csv";
              content := CsvRows [["Name"; "Name"]; ["None"; "x"]] |});
    vm_compute; reflexivity.
Defined.

(** ** The pages of the HTML listing *)

(** The submissions on page [n]. *)
Definition page_slice (queryset : list Submission) (n : Z) : list Submission :=
  take 25 (drop ((Z.to_nat n - 1) * 25) queryset).

(** The response of the listing that shows [page]. *)
Definition html_response (to_python : string → option Z)
    (user_can_delete_obj : string → Form → bool) (request : HttpRequest)
    (object : Form) (page : list Submission) : HttpResponse :=
  {| status_code := 200;
     content_type := "text/html; charset=utf-8";
     content_disposition := None;
     content :=
       Html {| filter_form := SelectDateForm to_python (GET request);
               data_rows := map (data_row (get_data_fields object)) page;
               data_headings := map snd (get_data_fields object);
               has_delete_permission :=
                 user_can_delete_obj (user request) object |} |}.

(** The rows an HTML response shows. *)
Definition html_rows (r : HttpResponse) : option (list DataRow) :=
  match content r with
  | Html ctx => Some (data_rows ctx)
  | _ => None
  end.

Lemma num_pages_covers (count per_page : nat) :
  (0 < per_page)%nat →
  (1 ≤ num_pages count per_page)%nat
  ∧ (count ≤ num_pages count per_page * per_page)%nat
  ∧ ((num_pages count per_page - 1) * per_page < max 1 count)%nat.
Proof.
  intros Hk. unfold num_pages.
  set (a := (max 1 count + per_page - 1)%nat).
  pose proof (Nat.div_mod_eq a per_page) as Hdiv.
  pose proof (Nat.mod_upper_bound a per_page ltac:(lia)) as Hmod.
  assert (1 ≤ a / per_page)%nat as Hone.
  { apply Nat.div_le_lower_bound; unfold a; lia. }
  repeat split; [done| |]; unfold a in *; nia.
Qed.

Lemma paginator_page_invalid (l : list Submission) (per_page : nat) (n : Z) :
  (0 < per_page)%nat →
  (n < 1 ∨ Z.of_nat (num_pages (length l) per_page) < n)%Z →
  paginator_page l per_page n = Raise InvalidPage.
Proof.
  intros Hk Hn. pose proof (num_pages_covers (length l) per_page Hk) as [Hone _].
  unfold paginator_page, validate_number.
  destruct (decide (n < 1)%Z); [done|].
  rewrite decide_True by lia. by rewrite decide_False by lia.
Qed.

Lemma get_html_run (strip_tags : string → string)
    (to_python int : string → option Z)
    (re_formatchars : ascii → bool) (get_format : string → string)
    (user_can_delete_obj : string → Form → bool) (db : Database)
    (request : HttpRequest) (object : Form) (queryset : list Submission)
    (log : list db_query) :
  GET request !! "action" ≠ Some "CSV" →
  GET request !! "action" ≠ Some "EXCEL" →
  get_queryset db object (SelectDateForm to_python (GET request)) = Ok queryset →
  let last := Z.of_nat (num_pages (length queryset) 25) in
  let shown page :=
    (Ok (html_response to_python user_can_delete_obj request object page),
     (log ++ listing_queries page)%list) in
  get strip_tags to_python int re_formatchars get_format user_can_delete_obj db
    SubmissionListView request object log
  = match requested_page int SubmissionListView request with
    | page_invalid =>
        (Raise (Http404 "Page is not 'last', nor can it be converted to an int."),
         log)
    | page_last => shown (page_slice queryset last)
    | page_number n =>
        if decide (n < 1)%Z then (Raise (Http404 "Invalid page"), log)
        else if decide (n ≤ last)%Z then shown (page_slice queryset n)
        else (Raise (Http404 "Invalid page"), (log ++ [SubmissionCount])%list)
    end.
Proof.
  intros Hcsv Hxlsx Hqs last shown.
  pose proof (num_pages_covers (length queryset) 25 ltac:(lia)) as [Hone _].
  destruct (requested_page int SubmissionListView request) as [n| |] eqn:Hpage.
  - destruct (decide (n < 1)%Z) as [Hlow|Hlow];
      [|destruct (decide (n ≤ last)%Z) as [Hn|Hn]].
    + unfold get. rewrite decide_False by done. rewrite decide_False by done.
      unfold list_view_get, mbind, M_bind, lift. rewrite Hqs.
      unfold get_context_data. change (paginate_by SubmissionListView) with 25%nat.
      rewrite decide_False by done.
      unfold mbind, M_bind, paginate_queryset. rewrite Hpage.
      rewrite (decide_True (P := (n < 1)%Z)) by done.
      unfold mbind, M_bind, mret, M_ret, try_except, lift.
      rewrite paginator_page_invalid by lia. reflexivity.
    + apply get_html_page; try done. unfold last in Hn. lia.
    + unfold get. rewrite decide_False by done. rewrite decide_False by done.
      unfold list_view_get, mbind, M_bind, lift. rewrite Hqs.
      unfold get_context_data. change (paginate_by SubmissionListView) with 25%nat.
      rewrite decide_False by done.
      unfold mbind, M_bind, paginate_queryset. rewrite Hpage.
      rewrite (decide_False (P := (n < 1)%Z)) by done.
      unfold mbind, M_bind, execute, try_except, lift.
      rewrite paginator_page_invalid by (unfold last in Hn; lia). reflexivity.
  - assert (get strip_tags to_python int re_formatchars get_format
              user_can_delete_obj db SubmissionListView
              request object log = shown (page_slice queryset last)) as ->; [|done].
    unfold get. rewrite decide_False by done. rewrite decide_False by done.
    unfold list_view_get, mbind, M_bind, lift. rewrite Hqs.
    unfold get_context_data. change (paginate_by SubmissionListView) with 25%nat.
    rewrite decide_False by done.
    unfold mbind, M_bind, paginate_queryset. rewrite Hpage.
    unfold mbind, M_bind, execute, try_except, lift.
    fold last.
    rewrite (paginator_page_slice queryset 25 last) by (unfold last; lia).
    unfold mret, M_ret, shown, html_response, listing_queries.
    fold (page_slice queryset last).
    destruct (page_slice queryset last); by rewrite <- ?app_assoc.
  - unfold get. rewrite decide_False by done. rewrite decide_False by done.
    unfold list_view_get, mbind, M_bind, lift. rewrite Hqs.
    unfold get_context_data. change (paginate_by SubmissionListView) with 25%nat.
    rewrite decide_False by done.
    unfold mbind, M_bind, paginate_queryset. by rewrite Hpage.
Qed.

(** A page of the listing has no row only when the query has none. *)
Lemma page_slice_nil (queryset : list Submission) (n : Z) :
  (1 ≤ n ≤ Z.of_nat (num_pages (length queryset) 25))%Z →
  page_slice queryset n = [] ↔ queryset = [].
Proof.
  intros Hn. unfold page_slice. split; [|intros ->; by rewrite drop_nil, take_nil].
  intros Hnil. apply (f_equal length) in Hnil.
  rewrite length_take, length_drop in Hnil. cbn [length] in Hnil.
  pose proof (num_pages_covers (length queryset) 25 ltac:(lia)) as (_ & _ & Hlast).
  assert ((Z.to_nat n - 1) * 25 ≤ (num_pages (length queryset) 25 - 1) * 25)%nat
    by (apply Nat.mul_le_mono_r; lia).
  destruct queryset; [done|]. cbn [length] in *. lia.
Qed.

Lemma mapM_all_Ok {A B : Type} (f : A → result B) (g : A → B) (l : list A) :
  (∀ x, x ∈ l → f x = Ok (g x)) → mapM f l = Ok (map g l).
Proof.
  induction l as [|x l IH]; intros Hall; [done|].
  rewrite mapM_cons, (Hall x) by (apply elem_of_cons; by left).
  cbn [mbind result_bind]. rewrite IH; [done|].
  intros y Hy. apply Hall, elem_of_cons. by right.
Qed.

Lemma concat_slices (l : list Submission) (k m : nat) :
  concat (map (λ n, take k (drop ((n - 1) * k) l)) (seq 1 m)) = take (m * k) l.
Proof.
  induction m as [|m IH]; [done|].
  rewrite seq_S, map_app, concat_app, IH. cbn [map concat].
  rewrite app_nil_r. replace (1 + m - 1)%nat with m by lia.
  rewrite take_take_drop. f_equal. lia.
Qed.

(** X13. The pages of the listing tile the filtered submissions: the
    pages 1 to the last, one after the other, are the query itself, each
    submission on one page, in order; a page never has more than 25
    rows, and none is empty unless the query is. *)
Theorem listing_pages_tile (queryset : list Submission) :
  let per_page := paginate_by SubmissionListView in
  let last := num_pages (length queryset) per_page in
  ∃ pages,
    mapM (λ n, paginator_page queryset per_page (Z.of_nat n)) (seq 1 last)
    = Ok pages
    ∧ concat pages = queryset
    ∧ Forall (λ page, (length page ≤ 25)%nat) pages
    ∧ (queryset ≠ [] → Forall (λ page, page ≠ []) pages).
Proof.
  intros per_page last.
  change per_page with 25%nat in *.
  pose proof (num_pages_covers (length queryset) 25 ltac:(lia))
    as (Hone & Hcover & Hlast).
  fold last in Hone, Hcover, Hlast.
  exists (map (λ n, take 25 (drop ((n - 1) * 25) queryset)) (seq 1 last)).
  split; [|split; [|split]].
  - apply mapM_all_Ok. intros n Hn.
    apply list_elem_of_In, in_seq in Hn.
    rewrite paginator_page_slice by (fold last; lia).
    by rewrite Nat2Z.id.
  - rewrite concat_slices. apply take_ge. lia.
  - apply Forall_forall. intros page Hpage.
    apply list_elem_of_In, in_map_iff in Hpage as (n & <- & _).
    rewrite length_take. lia.
  - intros Hne. apply Forall_forall. intros page Hpage.
    apply list_elem_of_In, in_map_iff in Hpage as (n & <- & Hn).
    apply in_seq in Hn.
    assert (0 < length queryset)%nat as Hlen
      by (destruct queryset; [done|simpl; lia]).
    intros Hnil. apply (f_equal length) in Hnil.
    rewrite length_take, length_drop in Hnil. cbn [length] in Hnil.
    assert ((n - 1) * 25 ≤ (last - 1) * 25)%nat
      by (apply Nat.mul_le_mono_r; lia).
    lia.
Qed.

(** X14. A page that does not exist is not found. A [p] that is neither
    a number nor [last], and a number below 1, raise [Http404] before
    the submissions are counted; a number beyond the last page raises it
    after the count, before any row is fetched. *)
Theorem bad_page_not_found (strip_tags : string → string)
    (to_python int : string → option Z)
    (re_formatchars : ascii → bool) (get_format : string → string)
    (user_can_delete_obj : string → Form → bool) (db : Database)
    (request : HttpRequest) (object : Form) (queryset : list Submission)
    (log : list db_query) :
  GET request !! "action" ≠ Some "CSV" →
  GET request !! "action" ≠ Some "EXCEL" →
  get_queryset db object (SelectDateForm to_python (GET request)) = Ok queryset →
  let view :=
    get strip_tags to_python int re_formatchars get_format user_can_delete_obj db
      SubmissionListView in
  (requested_page int SubmissionListView request = page_invalid →
   ∃ msg, view request object log = (Raise (Http404 msg), log))
  ∧ (∀ n, requested_page int SubmissionListView request = page_number n →
       (n < 1)%Z →
       ∃ msg, view request object log = (Raise (Http404 msg), log))
  ∧ (∀ n, requested_page int SubmissionListView request = page_number n →
       (Z.of_nat (num_pages (length queryset) 25) < n)%Z →
       ∃ msg, view request object log
              = (Raise (Http404 msg), (log ++ [SubmissionCount])%list)).
Proof.
  intros Hcsv Hxlsx Hqs view. unfold view.
  rewrite (get_html_run _ _ _ _ _ _ _ _ _ _ _ Hcsv Hxlsx Hqs).
  pose proof (num_pages_covers (length queryset) 25 ltac:(lia)) as [Hone _].
  split; [|split].
  - intros ->. by eexists.
  - intros n -> Hn. rewrite decide_True by done. by eexists.
  - intros n -> Hn. rewrite decide_False by lia. rewrite decide_False by lia.
    by eexists.
Qed.

Lemma bad_page_not_found_witness :
  let view :=
    get Sample.strip_tags Sample.to_python Sample.int Sample.re_formatchars
      Sample.get_format Sample.user_can_delete_obj Sample.busy_db
      SubmissionListView in
  (∃ msg, view (Sample.request "editor" {[ "p" := "two" ]}) Sample.contact []
          = (Raise (Http404 msg), []))
  ∧ (∃ msg, view (Sample.request "editor" {[ "p" := "0" ]}) Sample.contact []
            = (Raise (Http404 msg), []))
  ∧ (∃ msg, view (Sample.request "editor" {[ "p" := "3" ]}) Sample.contact []
            = (Raise (Http404 msg), [SubmissionCount])).
Proof.
  intros view. split; [|split].
  - destruct (bad_page_not_found Sample.strip_tags Sample.to_python Sample.int
                Sample.re_formatchars Sample.get_format
                Sample.user_can_delete_obj Sample.busy_db
                (Sample.request "editor" {[ "p" := "two" ]}) Sample.contact
                Sample.thirty []) as (Hinvalid & _ & _);
      [discriminate | discriminate | vm_compute; reflexivity |].
    apply Hinvalid. reflexivity.
  - destruct (bad_page_not_found Sample.strip_tags Sample.to_python Sample.int
                Sample.re_formatchars Sample.get_format
                Sample.user_can_delete_obj Sample.busy_db
                (Sample.request "editor" {[ "p" := "0" ]}) Sample.contact
                Sample.thirty []) as (_ & Hlow & _);
      [discriminate | discriminate | vm_compute; reflexivity |].
    apply (Hlow 0%Z); reflexivity.
  - destruct (bad_page_not_found Sample.strip_tags Sample.to_python Sample.int
                Sample.re_formatchars Sample.get_format
                Sample.user_can_delete_obj Sample.busy_db
                (Sample.request "editor" {[ "p" := "3" ]}) Sample.contact
                Sample.thirty []) as (_ & _ & Hrange);
      [discriminate | discriminate | vm_compute; reflexivity |].
    apply (Hrange 3%Z); [reflexivity|]. vm_compute. reflexivity.
Defined.

(** X15. Without [p], or with an empty one, the listing shows the first
    page, the first 25 submissions of the query, and [p=last] shows the
    last page. Both answer 200 also when the query is empty, with no
    row, and then after the count alone: no row is fetched. When the
    query is not empty, the count and one fetch precede the answer. *)
Theorem first_and_last_page (strip_tags : string → string)
    (to_python int : string → option Z)
    (re_formatchars : ascii → bool) (get_format : string → string)
    (user_can_delete_obj : string → Form → bool) (db : Database)
    (request : HttpRequest) (object : Form) (queryset : list Submission)
    (log : list db_query) :
  GET request !! "action" ≠ Some "CSV" →
  GET request !! "action" ≠ Some "EXCEL" →
  get_queryset db object (SelectDateForm to_python (GET request)) = Ok queryset →
  let view :=
    get strip_tags to_python int re_formatchars get_format user_can_delete_obj db
      SubmissionListView in
  let queries :=
    match queryset with
    | [] => [SubmissionCount]
    | _ :: _ => [SubmissionCount; SubmissionFetch]
    end in
  let shown page :=
    (Ok (html_response to_python user_can_delete_obj request object page),
     (log ++ queries)%list) in
  (GET request !! "p" = None ∨ GET request !! "p" = Some "" →
   view request object log = shown (take 25 queryset))
  ∧ (GET request !! "p" = Some "last" → int "last" = None →
     view request object log
     = shown (drop ((num_pages (length queryset) 25 - 1) * 25) queryset))
  ∧ (queryset = [] → take 25 queryset = []
     ∧ drop ((num_pages (length queryset) 25 - 1) * 25) queryset = []).
Proof.
  intros Hcsv Hxlsx Hqs view queries shown. unfold view.
  rewrite (get_html_run _ _ _ _ _ _ _ _ _ _ _ Hcsv Hxlsx Hqs).
  pose proof (num_pages_covers (length queryset) 25 ltac:(lia))
    as (Hone & Hcover & _).
  assert (∀ n, (1 ≤ n ≤ Z.of_nat (num_pages (length queryset) 25))%Z →
               listing_queries (page_slice queryset n) = queries) as Hqueries.
  { intros n Hn. pose proof (page_slice_nil queryset n Hn) as Hnil.
    unfold listing_queries, queries.
    destruct (page_slice queryset n) as [|s page].
    - by rewrite (proj1 Hnil eq_refl).
    - destruct queryset; [|done]. by pose proof (proj2 Hnil eq_refl). }
  split; [|split].
  - intros Hp.
    assert (requested_page int SubmissionListView request = page_number 1) as ->.
    { unfold requested_page. change (page_kwarg SubmissionListView) with "p".
      destruct Hp as [-> | ->]; [done|]. by rewrite decide_True. }
    rewrite decide_False by lia. rewrite decide_True by lia.
    rewrite Hqueries by lia. reflexivity.
  - intros Hp Hint.
    assert (requested_page int SubmissionListView request = page_last) as ->.
    { unfold requested_page. change (page_kwarg SubmissionListView) with "p".
      rewrite Hp, decide_False by done. rewrite Hint. by rewrite decide_True. }
    rewrite Hqueries by lia.
    unfold shown, page_slice. rewrite Nat2Z.id. do 3 f_equal.
    apply take_ge. rewrite length_drop. lia.
  - intros ->. by rewrite take_nil, drop_nil.
Qed.

Lemma first_and_last_page_witness :
  let view :=
    get Sample.strip_tags Sample.to_python Sample.int Sample.re_formatchars
      Sample.get_format Sample.user_can_delete_obj Sample.busy_db
      SubmissionListView in
  view (Sample.request "editor" ∅) Sample.contact []
  = (Ok (html_response Sample.to_python Sample.user_can_delete_obj
           (Sample.request "editor" ∅) Sample.contact (take 25 Sample.thirty)),
     [SubmissionCount; SubmissionFetch])
  ∧ view (Sample.request "editor" {[ "p" := "last" ]}) Sample.contact []
    = (Ok (html_response Sample.to_python Sample.user_can_delete_obj
             (Sample.request "editor" {[ "p" := "last" ]}) Sample.contact
             (drop 25 Sample.thirty)),
       [SubmissionCount; SubmissionFetch]).
Proof.
  intros view. split.
  - destruct (first_and_last_page Sample.strip_tags Sample.to_python Sample.int
                Sample.re_formatchars Sample.get_format
                Sample.user_can_delete_obj Sample.busy_db
                (Sample.request "editor" ∅) Sample.contact Sample.thirty [])
      as (Hfirst & _ & _);
      [discriminate | discriminate | vm_compute; reflexivity |].
    apply Hfirst. by left.
  - destruct (first_and_last_page Sample.strip_tags Sample.to_python Sample.int
                Sample.re_formatchars Sample.get_format
                Sample.user_can_delete_obj Sample.busy_db
                (Sample.request "editor" {[ "p" := "last" ]}) Sample.contact
                Sample.thirty [])
      as (_ & Hlast & _);
      [discriminate | discriminate | vm_compute; reflexivity |].
    apply Hlast; reflexivity.
Defined.

(** X16. Whatever [p] is, a listing that is returned shows at most 25
    submissions, all of them from the filtered query and in its order,
    each row with one value for each field of the schema, the headings
    being the labels as they are; it was preceded by one count of the
    submissions, and by one fetch unless the query, and so the page, has
    no row. *)
Theorem html_listing_invariant (strip_tags : string → string)
    (to_python int : string → option Z)
    (re_formatchars : ascii → bool) (get_format : string → string)
    (user_can_delete_obj : string → Form → bool) (db : Database)
    (request : HttpRequest) (object : Form) (queryset : list Submission)
    (log log' : list db_query) (r : HttpResponse) :
  GET request !! "action" ≠ Some "CSV" →
  GET request !! "action" ≠ Some "EXCEL" →
  get_queryset db object (SelectDateForm to_python (GET request)) = Ok queryset →
  get strip_tags to_python int re_formatchars get_format user_can_delete_obj db
    SubmissionListView request object log = (Ok r, log') →
  ∃ page,
    r = html_response to_python user_can_delete_obj request object page
    ∧ page `sublist_of` queryset
    ∧ (length page ≤ 25)%nat
    ∧ html_rows r = Some (map (data_row (get_data_fields object)) page)
    ∧ Forall (λ row, length (fields row) = length (get_data_fields object))
        (map (data_row (get_data_fields object)) page)
    ∧ (page = [] ↔ queryset = [])
    ∧ log' = (log ++ match queryset with
                     | [] => [SubmissionCount]
                     | _ :: _ => [SubmissionCount; SubmissionFetch]
                     end)%list.
Proof.
  intros Hcsv Hxlsx Hqs.
  rewrite (get_html_run _ _ _ _ _ _ _ _ _ _ _ Hcsv Hxlsx Hqs).
  pose proof (num_pages_covers (length queryset) 25 ltac:(lia)) as (Hone & _ & _).
  assert (∀ n, page_slice queryset n `sublist_of` queryset
               ∧ (length (page_slice queryset n) ≤ 25)%nat) as Hslice.
  { intros n. unfold page_slice. split.
    - etrans; [apply sublist_take|apply sublist_drop].
    - rewrite length_take. lia. }
  assert (∀ page,
            Forall (λ row, length (fields row) = length (get_data_fields object))
              (map (data_row (get_data_fields object)) page)) as Hrows.
  { intros page. apply Forall_forall. intros row Hrow.
    apply list_elem_of_In, in_map_iff in Hrow as (s & <- & _).
    unfold data_row. cbn [fields]. apply length_map. }
  assert (∀ n, (1 ≤ n ≤ Z.of_nat (num_pages (length queryset) 25))%Z →
               listing_queries (page_slice queryset n)
               = match queryset with
                 | [] => [SubmissionCount]
                 | _ :: _ => [SubmissionCount; SubmissionFetch]
                 end) as Hqueries.
  { intros n Hn. pose proof (page_slice_nil queryset n Hn) as Hnil.
    unfold listing_queries.
    destruct (page_slice queryset n) as [|s page].
    - by rewrite (proj1 Hnil eq_refl).
    - destruct queryset; [|done]. by pose proof (proj2 Hnil eq_refl). }
  destruct (requested_page int SubmissionListView request) as [n| |].
  - destruct (decide (n < 1)%Z); [done|]. destruct (decide _); [|done].
    assert (1 ≤ n ≤ Z.of_nat (num_pages (length queryset) 25))%Z as Hn by lia.
    rewrite (Hqueries n Hn). pose proof (page_slice_nil queryset n Hn).
    destruct (Hslice n). intros [= <- <-].
    exists (page_slice queryset n). repeat split; auto; tauto.
  - assert (1 ≤ Z.of_nat (num_pages (length queryset) 25)
            ≤ Z.of_nat (num_pages (length queryset) 25))%Z as Hn by lia.
    rewrite (Hqueries _ Hn). pose proof (page_slice_nil queryset _ Hn).
    destruct (Hslice (Z.of_nat (num_pages (length queryset) 25))).
    intros [= <- <-].
    exists (page_slice queryset (Z.of_nat (num_pages (length queryset) 25))).
    repeat split; auto; tauto.
  - done.
Qed.

Lemma html_listing_invariant_witness :
  ∃ page,
    html_response Sample.to_python Sample.user_can_delete_obj
      (Sample.request "editor" {[ "p" := "2" ]}) Sample.contact
      (drop 25 Sample.thirty)
    = html_response Sample.to_python Sample.user_can_delete_obj
        (Sample.request "editor" {[ "p" := "2" ]}) Sample.contact page
    ∧ page `sublist_of` Sample.thirty
    ∧ (length page ≤ 25)%nat
    ∧ html_rows (html_response Sample.to_python Sample.user_can_delete_obj
                   (Sample.request "editor" {[ "p" := "2" ]}) Sample.contact
                   (drop 25 Sample.thirty))
      = Some (map (data_row (get_data_fields Sample.contact)) page)
    ∧ Forall (λ row, length (fields row) = length (get_data_fields Sample.contact))
        (map (data_row (get_data_fields Sample.contact)) page)
    ∧ (page = [] ↔ Sample.thirty = [])
    ∧ [SubmissionCount; SubmissionFetch]
      = ([] ++ [SubmissionCount; SubmissionFetch])%list.
Proof.
  apply (html_listing_invariant Sample.strip_tags Sample.to_python Sample.int
           Sample.re_formatchars Sample.get_format
           Sample.user_can_delete_obj Sample.busy_db
           (Sample.request "editor" {[ "p" := "2" ]}) Sample.contact
           Sample.thirty []);
    [discriminate | discriminate | vm_compute; reflexivity | vm_compute; reflexivity].
Defined.

(** ** Hooks that filter the forms *)

Lemma visible_forms_sublist
    (get_hooks : list (list Form → HttpRequest → list Form)) (db : Database)
    (request : HttpRequest) :
  Forall (λ fn, ∀ qs, fn qs request `sublist_of` qs) get_hooks →
  visible_forms get_hooks db request `sublist_of` Form_objects db.
Proof.
  unfold visible_forms. intros Hhooks.
  enough (∀ qs, qs `sublist_of` Form_objects db →
                foldl (λ qs fn, fn qs request) qs get_hooks
                `sublist_of` Form_objects db) as Hall by (by apply Hall).
  induction Hhooks as [|fn hooks Hfn _ IH]; intros qs Hqs; [done|].
  cbn [foldl]. apply IH. etrans; [apply Hfn|done].
Qed.

(** X17. When every hook only filters the forms it is given, and
    primary keys are unique, [get_object] either returns the one form of
    the database with the requested key or raises [Http404]; it never
    meets several forms, and a key that no form has is not found
    whatever the hooks are. *)
Theorem filtering_hooks_resolve
    (get_hooks : list (list Form → HttpRequest → list Form)) (db : Database)
    (request : HttpRequest) (pk_ : option Z) (log : list db_query) :
  Forall (λ fn, ∀ qs, fn qs request `sublist_of` qs) get_hooks →
  NoDup (map pk (Form_objects db)) →
  (get_object get_hooks db request pk_ log
   = (Raise (Http404 "No Form found matching the query"),
      (log ++ [FormGet pk_])%list)
   ∨ ∃ object,
       get_object get_hooks db request pk_ log
       = (Ok object, (log ++ [FormGet pk_])%list)
       ∧ object ∈ Form_objects db ∧ Some (pk object) = pk_)
  ∧ ((∀ f, f ∈ Form_objects db → Some (pk f) ≠ pk_) →
     get_object get_hooks db request pk_ log
     = (Raise (Http404 "No Form found matching the query"),
        (log ++ [FormGet pk_])%list)).
Proof.
  intros Hhooks Hnodup. rewrite get_object_run.
  assert (resolved get_hooks db request pk_ `sublist_of` Form_objects db) as Hsub.
  { unfold resolved. etrans; [apply sublist_filter|].
    by apply visible_forms_sublist. }
  assert (∀ f, f ∈ resolved get_hooks db request pk_ → Some (pk f) = pk_) as Hpk.
  { intros f Hf. unfold resolved in Hf. by apply list_elem_of_filter in Hf as [? _]. }
  assert (NoDup (pk <$> resolved get_hooks db request pk_)) as Hnd.
  { eapply sublist_NoDup; [exact Hnodup|]. by apply fmap_sublist. }
  destruct (resolved get_hooks db request pk_) as [|object [|other rest]].
  - split; [by left|done].
  - assert (object ∈ [object]) as Hin by (apply elem_of_cons; by left).
    split.
    + right. exists object. split; [done|]. split; [|by apply Hpk].
      eapply elem_of_sublist; eauto.
    + intros Hnone. destruct (Hnone object); [|by apply Hpk].
      eapply elem_of_sublist; eauto.
  - exfalso. cbn [fmap list_fmap] in Hnd.
    apply NoDup_cons in Hnd as [Hfresh _]. apply Hfresh.
    assert (Some (pk object) = Some (pk other)) as [= ->].
    { rewrite (Hpk object), (Hpk other); [done| |];
        rewrite !elem_of_cons; auto. }
    apply elem_of_cons. by left.
Qed.

Lemma filtering_hooks_resolve_witness :
  let hide_survey : list Form → HttpRequest → list Form :=
    λ qs _, filter (λ f, pk f ≠ 2%Z) qs in
  (get_object [hide_survey] Sample.db (Sample.request "editor" ∅) (Some 2%Z) []
   = (Raise (Http404 "No Form found matching the query"), [FormGet (Some 2%Z)])
   ∨ ∃ object,
       get_object [hide_survey] Sample.db (Sample.request "editor" ∅) (Some 2%Z) []
       = (Ok object, [FormGet (Some 2%Z)])
       ∧ object ∈ Form_objects Sample.db ∧ Some (pk object) = Some 2%Z)
  ∧ ((∀ f, f ∈ Form_objects Sample.db → Some (pk f) ≠ Some 2%Z) →
     get_object [hide_survey] Sample.db (Sample.request "editor" ∅) (Some 2%Z) []
     = (Raise (Http404 "No Form found matching the query"), [FormGet (Some 2%Z)])).
Proof.
  intros hide_survey.
  apply (filtering_hooks_resolve [hide_survey] Sample.db
           (Sample.request "editor" ∅) (Some 2%Z) []).
  - constructor; [|constructor]. intros qs. apply sublist_filter.
  - apply (bool_decide_unpack _). vm_compute. exact I.
Defined.

(** ** The two exports side by side *)

Lemma csv_cells_of (strip_tags : string → string) (db : Database) (object : Form)
    (ff : BoundForm) (queryset : list Submission) (log : list db_query) :
  get_queryset db object ff = Ok queryset →
  ∃ r, csv strip_tags db object ff log = (Ok r, (log ++ [SubmissionFetch])%list)
    ∧ ∀ row col, csv_cell r row col
        = match row with
          | 0%nat => map (heading strip_tags) (get_data_fields object) !! col
          | S n =>
              item ← queryset !! n;
              csv_row (get_data_fields object) item !! col
          end.
Proof.
  intros Hqs. rewrite csv_run, Hqs. eexists. split; [reflexivity|].
  intros [|n] col; unfold csv_cell; cbn [content]; [reflexivity|].
  change ((?h :: map (csv_row (get_data_fields object)) queryset) !! S n)
    with ((csv_row (get_data_fields object) <$> queryset) !! n).
  rewrite list_lookup_fmap. by destruct (queryset !! n).
Qed.

(** X18. When the labels of the schema are pairwise distinct, and the
    date format of the locale can be made for the workbook, the workbook
    holds in every cell the text the CSV holds there, header and rows
    alike, and is empty where the CSV is. When the date format cannot be
    made, the CSV is there and the workbook is not. *)
Theorem exports_agree (strip_tags : string → string)
    (re_formatchars : ascii → bool) (get_format : string → string)
    (db : Database)
    (object : Form) (ff : BoundForm) (queryset : list Submission)
    (log : list db_query) :
  get_queryset db object ff = Ok queryset →
  NoDup (map snd (get_data_fields object)) →
  let workbook :=
    write_xlsx_response strip_tags re_formatchars get_format SubmissionListView
      object queryset log in
  ∃ rc,
    csv strip_tags db object ff log = (Ok rc, (log ++ [SubmissionFetch])%list)
    ∧ match ExcelDateFormatter.get re_formatchars get_format with
      | ExcelDateFormatter.Attr _ =>
          ∃ rx,
            workbook = (Ok rx, (log ++ [SubmissionFetch])%list)
            ∧ ∀ row col, xlsx_cell rx row col = VStr <$> csv_cell rc row col
      | ExcelDateFormatter.AttributeError msg =>
          workbook = (Raise (AttributeError msg), log)
      end.
Proof.
  intros Hqs Hnd workbook.
  destruct (csv_cells_of strip_tags db object ff queryset log Hqs)
    as (rc & Hcsv & Hcells).
  exists rc. split; [done|].
  pose proof (write_xlsx_response_run strip_tags re_formatchars get_format
                object queryset log) as Hxlsx.
  destruct (ExcelDateFormatter.get re_formatchars get_format) as [excel|msg];
    [|exact Hxlsx].
  destruct Hxlsx as (rx & Hxlsx & _ & Hxcells).
  exists rx. split; [done|].
  intros [|n] col; rewrite Hxcells, Hcells; [done|].
  destruct (queryset !! n) as [item|]; [|done]. cbn [mbind option_bind].
  rewrite (data_dict_NoDup _ _ Hnd). unfold csv_row.
  change (map ?f ?l) with (f <$> l).
  rewrite <- list_fmap_compose, !list_lookup_fmap.
  by destruct (get_data_fields object !! col).
Qed.

Lemma exports_agree_witness :
  ∃ rc,
    csv Sample.strip_tags Sample.db Sample.contact Sample.no_filter []
    = (Ok rc, [SubmissionFetch])
    ∧ ∃ rx,
        write_xlsx_response Sample.strip_tags Sample.re_formatchars
          Sample.get_format SubmissionListView Sample.contact
          [Sample.s1; Sample.s2] []
        = (Ok rx, [SubmissionFetch])
        ∧ ∀ row col, xlsx_cell rx row col = VStr <$> csv_cell rc row col.
Proof.
  apply (exports_agree Sample.strip_tags Sample.re_formatchars Sample.get_format
           Sample.db Sample.contact Sample.no_filter [Sample.s1; Sample.s2] []).
  - vm_compute. reflexivity.
  - apply (bool_decide_unpack _). vm_compute. exact I.
Defined.

(** X19. Under a locale whose [SHORT_DATETIME_FORMAT] holds a format
    character that has no backslash right before it and no entry in
    [_formats], the XLSX export raises [AttributeError], whatever the
    form and the submissions, and before any of them is fetched. Of the
    format characters of Django, those without an entry are [B], [f]
    and [t]. *)
Theorem xlsx_export_needs_date_format (strip_tags : string → string)
    (re_formatchars : ascii → bool) (get_format : string → string)
    (self : view_class) (object : Form) (queryset : list Submission)
    (log : list db_query) (before : string) (c : ascii) (after : string) :
  get_format "SHORT_DATETIME_FORMAT" = before +:+ String c after →
  ExcelDateFormatterProperties.unsupported_after re_formatchars before c →
  (∃ msg,
     write_xlsx_response strip_tags re_formatchars get_format self object
       queryset log
     = (Raise (AttributeError msg), log))
  ∧ filter (λ c, ExcelDateFormatter._formats !! String c "" = None)
      (String.list_ascii_of_string "aAbBcdDeEfFgGhHiIjlLmMnNoOPrsStTUuwWyYzZ")
    = ["B"; "f"; "t"]%char.
Proof.
  intros Hformat Hc. split; [|vm_compute; reflexivity].
  destruct (ExcelDateFormatter.get re_formatchars get_format) as [excel|msg] eqn:Hget.
  - exfalso.
    assert (∃ msg, ExcelDateFormatter.get re_formatchars get_format
                   = ExcelDateFormatter.AttributeError msg) as [msg Hraise].
    { unfold ExcelDateFormatter.get. rewrite Hformat.
      destruct Hc as (Hre & Hends & Hnone).
      rewrite ExcelDateFormatterProperties.format_concat by done.
      rewrite (ExcelDateFormatterProperties.format_unsupported_first
                 re_formatchars c after Hre Hnone).
      destruct (ExcelDateFormatter.format re_formatchars before); by eexists. }
    congruence.
  - exists msg. unfold write_xlsx_response, mbind, M_bind.
    by rewrite (write_xlsx_no_date_format _ _ _ _ _ _ _ msg Hget).
Qed.

Lemma xlsx_export_needs_date_format_witness :
  (∃ msg,
     write_xlsx_response Sample.strip_tags Sample.re_formatchars
       (λ _, "d/m/Y f") SubmissionListView Sample.contact [Sample.s1; Sample.s2] []
     = (Raise (AttributeError msg), []))
  ∧ filter (λ c, ExcelDateFormatter._formats !! String c "" = None)
      (String.list_ascii_of_string "aAbBcdDeEfFgGhHiIjlLmMnNoOPrsStTUuwWyYzZ")
    = ["B"; "f"; "t"]%char.
Proof.
  apply (xlsx_export_needs_date_format Sample.strip_tags Sample.re_formatchars
           (λ _, "d/m/Y f") SubmissionListView Sample.contact
           [Sample.s1; Sample.s2] [] "d/m/Y " "f" "").
  - reflexivity.
  - repeat split; reflexivity.
Defined.
